(** * News dashboard (src/News.tsx): request URLs and derived display values

    A shallow embedding of the [News] component: the three request URLs it
    builds with [URLSearchParams], the sentiment tallies and bar widths, the
    impact label, the "time ago" text and the truncated lists it renders.

    Conventions.
    - A JavaScript string is the list of its UTF-16 code units ([jsstring]).
    - A JavaScript number that holds a score or a ratio is a binary64 float
      ([PrimFloat.float]); array lengths are [nat]; time values (milliseconds
      since the epoch) are [Z].
    - A byte is an [ascii]. *)

From Stdlib Require Import List NArith ZArith Bool Lia Permutation.
From Stdlib Require Import Ascii String DecimalString.
From Stdlib Require Import Uint63 PrimFloat SpecFloat FloatOps.
Import ListNotations.

(** ** JavaScript strings *)

Module Js.

Definition jsstring := list N.

(** An ASCII literal as a JavaScript string. *)
Definition js (s : string) : jsstring :=
  map N_of_ascii (list_ascii_of_string s).

(** [s ? a : b], [s || d]: a string is truthy unless it is empty. *)
Definition truthy (s : jsstring) : bool :=
  match s with [] => false | _ :: _ => true end.

(** ECMAScript WhiteSpace and LineTerminator code points, the ones
    [String.prototype.trim] strips. *)
Definition isWhiteSpace (c : N) : bool :=
  ((0x09 <=? c) && (c <=? 0x0D)
   || (c =? 0x20) || (c =? 0xA0) || (c =? 0x1680)
   || (0x2000 <=? c) && (c <=? 0x200A)
   || (c =? 0x2028) || (c =? 0x2029) || (c =? 0x202F) || (c =? 0x205F)
   || (c =? 0x3000) || (c =? 0xFEFF))%N.

Fixpoint trimStart (s : jsstring) : jsstring :=
  match s with
  | c :: r => if isWhiteSpace c then trimStart r else s
  | [] => []
  end.

Definition trimEnd (s : jsstring) : jsstring := rev (trimStart (rev s)).

Definition trim (s : jsstring) : jsstring := trimEnd (trimStart s).

(** [s.split(sep)[0]]: the part of [s] before the first [sep]. *)
Fixpoint beforeFirst (sep : N) (s : jsstring) : jsstring :=
  match s with
  | [] => []
  | c :: r => if (c =? sep)%N then [] else c :: beforeFirst sep r
  end.

(** [s.slice(s.indexOf(sep) + 1)] when [sep] occurs, else the empty string. *)
Fixpoint afterFirst (sep : N) (s : jsstring) : jsstring :=
  match s with
  | [] => []
  | c :: r => if (c =? sep)%N then r else afterFirst sep r
  end.

(** Number to string, for an integer below 10^21: its decimal digits. *)
Definition numberToString (z : Z) : jsstring :=
  js (NilZero.string_of_int (Z.to_int z)).

(** *** UTF-8 encoding of a string, as the URL standard applies it

    Conversion to a [USVString] replaces every lone surrogate by U+FFFD; a
    surrogate pair is one code point. *)

Definition isHighSurrogate (c : N) : bool := ((0xD800 <=? c) && (c <=? 0xDBFF))%N.
Definition isLowSurrogate (c : N) : bool := ((0xDC00 <=? c) && (c <=? 0xDFFF))%N.

Definition utf8CodePoint (cp : N) : list ascii :=
  (if cp <? 0x80 then [ascii_of_N cp]
   else if cp <? 0x800 then
     [ascii_of_N (0xC0 + cp / 64); ascii_of_N (0x80 + cp mod 64)]
   else if cp <? 0x10000 then
     [ascii_of_N (0xE0 + cp / 4096); ascii_of_N (0x80 + (cp / 64) mod 64);
      ascii_of_N (0x80 + cp mod 64)]
   else
     [ascii_of_N (0xF0 + cp / 262144); ascii_of_N (0x80 + (cp / 4096) mod 64);
      ascii_of_N (0x80 + (cp / 64) mod 64); ascii_of_N (0x80 + cp mod 64)])%N.

Fixpoint utf8Encode (s : jsstring) : list ascii :=
  match s with
  | [] => []
  | c :: r =>
      if isHighSurrogate c then
        match r with
        | d :: r' =>
            if isLowSurrogate d
            then utf8CodePoint (0x10000 + (c - 0xD800) * 1024 + (d - 0xDC00))%N
                   ++ utf8Encode r'
            else utf8CodePoint 0xFFFD%N ++ utf8Encode r
        | [] => utf8CodePoint 0xFFFD%N
        end
      else if isLowSurrogate c then utf8CodePoint 0xFFFD%N ++ utf8Encode r
      else utf8CodePoint c ++ utf8Encode r
  end.

End Js.

(** ** application/x-www-form-urlencoded, as [URLSearchParams] implements it *)

Module UrlEncoded.
Import Js.

Local Open Scope char_scope.

(** Bytes left as they are by the serializer: ASCII alphanumerics and
    [*], [-], [.], [_]. *)
Definition unreserved (b : ascii) : bool :=
  let n := N_of_ascii b in
  ((0x30 <=? n) && (n <=? 0x39) || (0x41 <=? n) && (n <=? 0x5A)
   || (0x61 <=? n) && (n <=? 0x7A)
   || (n =? 0x2A) || (n =? 0x2D) || (n =? 0x2E) || (n =? 0x5F))%N.

Definition hexDigit (n : N) : ascii :=
  nth (N.to_nat n)
      ["0"; "1"; "2"; "3"; "4"; "5"; "6"; "7"; "8"; "9"; "A"; "B"; "C"; "D"; "E"; "F"]
      "0".

Definition hexValue (c : ascii) : option N :=
  let n := N_of_ascii c in
  (if (0x30 <=? n) && (n <=? 0x39) then Some (n - 0x30)
   else if (0x41 <=? n) && (n <=? 0x46) then Some (n - 0x41 + 10)
   else if (0x61 <=? n) && (n <=? 0x66) then Some (n - 0x61 + 10)
   else None)%N.

(** Percent-encoding of one byte, a space written as [+]. *)
Definition encodeByte (b : ascii) : list ascii :=
  if (b =? " ") then ["+"]
  else if unreserved b then [b]
  else ["%"; hexDigit (N_of_ascii b / 16); hexDigit (N_of_ascii b mod 16)].

Definition encodeBytes (bs : list ascii) : list ascii := flat_map encodeByte bs.

Definition encodePair (p : list ascii * list ascii) : list ascii :=
  encodeBytes (fst p) ++ "=" :: encodeBytes (snd p).

(** The serializer: [name=value] tuples joined by [&]. *)
Fixpoint serialize (l : list (list ascii * list ascii)) : list ascii :=
  match l with
  | [] => []
  | [p] => encodePair p
  | p :: r => encodePair p ++ "&" :: serialize r
  end.

(** The parser, up to the final UTF-8 decoding of names and values. *)
Fixpoint splitOn (sep : ascii) (l : list ascii) : list (list ascii) :=
  match l with
  | [] => [[]]
  | c :: r =>
      if (c =? sep) then [] :: splitOn sep r
      else match splitOn sep r with
           | h :: t => (c :: h) :: t
           | [] => [[c]]
           end
  end.

Fixpoint splitFirst (sep : ascii) (l : list ascii) : list ascii * list ascii :=
  match l with
  | [] => ([], [])
  | c :: r =>
      if (c =? sep) then ([], r)
      else let (a, b) := splitFirst sep r in (c :: a, b)
  end.

Definition plusToSpace (c : ascii) : ascii := if (c =? "+") then " " else c.

Fixpoint percentDecode (l : list ascii) : list ascii :=
  match l with
  | [] => []
  | c :: r =>
      if (c =? "%") then
        match r with
        | h :: l' :: r' =>
            match hexValue h, hexValue l' with
            | Some a, Some b => ascii_of_N (16 * a + b) :: percentDecode r'
            | _, _ => c :: percentDecode r
            end
        | _ => c :: percentDecode r
        end
      else c :: percentDecode r
  end.

Definition decodeComponent (l : list ascii) : list ascii :=
  percentDecode (map plusToSpace l).

Definition parsePair (seq : list ascii) : list ascii * list ascii :=
  let (n, v) := splitFirst "=" seq in (decodeComponent n, decodeComponent v).

Definition parse (input : list ascii) : list (list ascii * list ascii) :=
  map parsePair
      (filter (fun seq => match seq with [] => false | _ :: _ => true end)
              (splitOn "&" input)).

(** [new URLSearchParams(record).toString()]: names and values are UTF-8
    encoded, then serialized; the result is ASCII, one code unit per byte. *)
Definition utf8Pair (p : jsstring * jsstring) : list ascii * list ascii :=
  (utf8Encode (fst p), utf8Encode (snd p)).

Definition toString (params : list (jsstring * jsstring)) : jsstring :=
  map N_of_ascii (serialize (map utf8Pair params)).

(** The parameters a URL carries, as its receiver reads them: the fragment
    (from the first [#]) is dropped, and the query is what follows the
    first [?]. *)
Definition urlQuery (url : jsstring) : jsstring :=
  afterFirst 0x3F (beforeFirst 0x23 url).

Definition searchParams (url : jsstring) : list (list ascii * list ascii) :=
  parse (utf8Encode (urlQuery url)).

(** A path holds no [?] and no [#]. *)
Definition isPath (path : jsstring) : bool :=
  forallb (fun c => negb (c =? 0x3F)%N) path
  && forallb (fun c => negb (c =? 0x23)%N) path.

Definition bytes (s : string) : list ascii := list_ascii_of_string s.

(** Character classes used to describe the serializer's output: an ASCII
    character other than [&], [=] and [#]; a character other than [sep]. *)
Definition plainChar (c : ascii) : bool :=
  negb (c =? "&") && negb (c =? "=") && negb (c =? "#") && (N_of_ascii c <? 128)%N.

Definition isNot (sep c : ascii) : bool := negb (c =? sep).

Definition nonEmpty (seq : list ascii) : bool :=
  match seq with [] => false | _ => true end.

Fixpoint eqBytes (a b : list ascii) : bool :=
  match a, b with
  | [], [] => true
  | x :: a', y :: b' => (x =? y) && eqBytes a' b'
  | _, _ => false
  end.

(** [URLSearchParams.get]: the value of the first tuple of that name. *)
Fixpoint get (name : list ascii) (l : list (list ascii * list ascii))
  : option (list ascii) :=
  match l with
  | [] => None
  | (n, v) :: r => if eqBytes n name then Some v else get name r
  end.

Definition getParam (name : string) (url : jsstring) : option (list ascii) :=
  get (bytes name) (searchParams url).

End UrlEncoded.


(** ** The component *)

Module NewsArticle.
Import Js.

Inductive Sentiment := bullish | bearish | neutral.
Inductive Importance := high | medium | low.

Record t := {
  id : jsstring;
  title : jsstring;
  summary : jsstring;
  sentiment : Sentiment;
  category : jsstring;
  assets : list jsstring;
  timestamp : jsstring;
  source : jsstring;
  importance : Importance;
  url : jsstring;
  impactScore : float;
  volatilityScore : float;
  biasScore : float;
  reasons : option (list jsstring)   (* [reasons?: string[]] *)
}.

Definition sentiment_eqb (a b : Sentiment) : bool :=
  match a, b with
  | bullish, bullish | bearish, bearish | neutral, neutral => true
  | _, _ => false
  end.

End NewsArticle.

Module NewsAlerts.
Import Js.

Record t := {
  generatedAt : jsstring;
  minutes : float;
  minImpact : float;
  alerts : list NewsArticle.t
}.

End NewsAlerts.

Module News.
Import Js UrlEncoded.

(** What [useBot] provides, as far as the component reads it. *)
Record Bot := { symbol : jsstring }.

(** The three [useState] cells. *)
Record State := {
  selectedCategory : jsstring;
  selectedAsset : jsstring;
  searchText : jsstring
}.

Definition initialState : State :=
  {| selectedCategory := js "all"; selectedAsset := js "FOR_YOU"; searchText := [] |}.

(** *** Request URLs (lines 88-108) *)

Definition newsParams (st : State) : list (jsstring * jsstring) :=
  let q := trim (searchText st) in
  [(js "asset", selectedAsset st);
   (js "category", selectedCategory st);
   (js "hours", js "48");
   (js "limit", js "80")]
  ++ (if truthy q then [(js "q", q)] else []).

Definition newsUrl (st : State) : jsstring :=
  js "/api/news?" ++ toString (newsParams st).

Definition briefingParams (st : State) : list (jsstring * jsstring) :=
  [(js "asset", selectedAsset st); (js "hours", js "24")].

Definition briefingUrl (st : State) : jsstring :=
  js "/api/news/briefing?" ++ toString (briefingParams st).

Definition alertsParams (st : State) : list (jsstring * jsstring) :=
  [(js "asset", selectedAsset st); (js "minutes", js "180"); (js "minImpact", js "75")].

Definition alertsUrl (st : State) : jsstring :=
  js "/api/news/alerts?" ++ toString (alertsParams st).

(** *** Filters (lines 83-86, 127-138) *)

Definition categories : list jsstring :=
  [js "all"; js "market"; js "regulation"; js "technology"; js "defi";
   js "security"; js "adoption"].

Record AssetFilter := { key : jsstring; label : jsstring }.

Section Filters.
(** [String.prototype.toUpperCase], the platform's Unicode case mapping. *)
Variable toUpperCase : jsstring -> jsstring.

Definition botBaseAsset (bot : option Bot) : jsstring :=
  let sym :=
    match bot with
    | Some b => if truthy (symbol b) then symbol b else js "BTC/USDT"
    | None => js "BTC/USDT"
    end in
  toUpperCase (beforeFirst 0x2F sym).

Definition assets (bot : option Bot) : list AssetFilter :=
  [ {| key := js "FOR_YOU"; label := js "For you (" ++ botBaseAsset bot ++ js ")" |};
    {| key := js "BTC"; label := js "BTC" |};
    {| key := js "ETH"; label := js "ETH" |};
    {| key := js "XRP"; label := js "XRP" |};
    {| key := js "ALL"; label := js "All" |} ].

(** One user action: a click on an asset button, on a category button, or
    an edit of the search box. The buttons are the ones rendered from
    [assets] and [categories]. *)
Inductive step : State -> State -> Prop :=
| step_asset st bot a :
    In a (assets bot) ->
    step st {| selectedCategory := selectedCategory st;
               selectedAsset := key a;
               searchText := searchText st |}
| step_category st cat :
    In cat categories ->
    step st {| selectedCategory := cat;
               selectedAsset := selectedAsset st;
               searchText := searchText st |}
| step_search st value :
    step st {| selectedCategory := selectedCategory st;
               selectedAsset := selectedAsset st;
               searchText := value |}.

Inductive reachable : State -> Prop :=
| reachable_init : reachable initialState
| reachable_step st st' : reachable st -> step st st' -> reachable st'.
End Filters.

(** *** Tallies and sentiment bar (lines 142-144, 483-497) *)

Definition countSentiment (s : NewsArticle.Sentiment) (news : list NewsArticle.t) : nat :=
  List.length
    (filter (fun n => NewsArticle.sentiment_eqb (NewsArticle.sentiment n) s) news).

Definition bullishCount := countSentiment NewsArticle.bullish.
Definition bearishCount := countSentiment NewsArticle.bearish.
Definition neutralCount := countSentiment NewsArticle.neutral.

(** An array length as a number. *)
Definition number (n : nat) : float := PrimFloat.of_uint63 (Uint63.of_Z (Z.of_nat n)).

(** [news.length > 0 ? (count / news.length) * 100 : 0], for [total] the
    length of [news]. *)
Definition barWidth (count total : nat) : float :=
  if (0 <? total)%nat
  then (number count / number total * 100)%float
  else 0%float.

(** The widths of the green, grey and red parts of the sentiment bar. *)
Definition barWidths (news : list NewsArticle.t) : float * float * float :=
  (barWidth (bullishCount news) (List.length news),
   barWidth (neutralCount news) (List.length news),
   barWidth (bearishCount news) (List.length news)).

(** *** Impact label (lines 148-153) *)

Record Label := { text : jsstring; cls : jsstring }.

Definition impactLabel (a : NewsArticle.t) : Label :=
  if (70 <=? NewsArticle.volatilityScore a)%float
  then {| text := js "Volatility spike"; cls := js "bg-rose-500/20 text-rose-300" |}
  else if (0.25 <=? NewsArticle.biasScore a)%float
  then {| text := js "Risk-on"; cls := js "bg-emerald-500/20 text-emerald-300" |}
  else if (NewsArticle.biasScore a <=? -0.25)%float
  then {| text := js "Risk-off"; cls := js "bg-amber-500/20 text-amber-300" |}
  else {| text := js "Mixed"; cls := js "bg-slate-500/20 text-slate-300" |}.

(** *** Time since publication (lines 155-166)

    Time values are integers of magnitude at most 8.64e15, so [diffMs] is an
    integer double, exact while it stays below 2^53 (for any publication
    date when [now] is before the year 13000). Below that bound the double
    quotient by 60000, 60 or 24 is within 1/60000 of the exact one, less
    than the distance of a non-integer quotient to the next integer, so
    [Math.floor] of it is the floor of the exact quotient: [Z.div]. *)

Section Time.
(** [new Date(timestamp).getTime()]: the time value the platform parses
    from the string, [None] when the date is invalid (NaN). *)
Variable getTime : jsstring -> option Z.

Definition formatTimeAgo (now : Z) (timestamp : jsstring) : jsstring :=
  match getTime timestamp with
  | None =>
      (* every comparison with NaN is false: the last branch prints it *)
      js "NaNd ago"
  | Some date =>
      let diffMs := (now - date)%Z in
      let diffMins := (diffMs / 60000)%Z in
      if (diffMins <? 1)%Z then js "Just now"
      else if (diffMins <? 60)%Z then numberToString diffMins ++ js "m ago"
      else
        let diffHours := (diffMins / 60)%Z in
        if (diffHours <? 24)%Z then numberToString diffHours ++ js "h ago"
        else numberToString (diffHours / 24)%Z ++ js "d ago"
  end.

(** *** Rendered lists (lines 237-257, 454-462) *)

(** One entry of the High Impact Alerts panel. *)
Record AlertCard := {
  cardKey : jsstring;
  cardHref : jsstring;
  cardSource : jsstring;
  cardTimeAgo : jsstring;
  cardTitle : jsstring;
  cardImpact : float;
  cardLabel : Label
}.

Definition alertCard (now : Z) (a : NewsArticle.t) : AlertCard :=
  {| cardKey := NewsArticle.id a;
     cardHref := NewsArticle.url a;
     cardSource := NewsArticle.source a;
     cardTimeAgo := formatTimeAgo now (NewsArticle.timestamp a);
     cardTitle := NewsArticle.title a;
     cardImpact := NewsArticle.impactScore a;
     cardLabel := impactLabel a |}.

(** [(alerts?.alerts ?? []).slice(0, 6).map(...)]; [alerts] is undefined
    until the first response arrives. *)
Definition alertsPanel (now : Z) (alerts : option NewsAlerts.t) : list AlertCard :=
  map (alertCard now)
      (firstn 6 (match alerts with
                 | Some r => NewsAlerts.alerts r
                 | None => []
                 end)).

(** The time shown on a headline card: [formatTimeAgo(article.timestamp)]. *)
Definition articleTimeAgo (now : Z) (article : NewsArticle.t) : jsstring :=
  formatTimeAgo now (NewsArticle.timestamp article).
End Time.

(** [article.reasons?.length ? article.reasons.slice(0, 4).map(...) : null]:
    the texts of the reason badges of a headline card. *)
Definition reasonBadges (article : NewsArticle.t) : list jsstring :=
  match NewsArticle.reasons article with
  | Some rs => if (0 <? List.length rs)%nat then firstn 4 rs else []
  | None => []
  end.

End News.

(** ** The rest of the rendered page *)

Module NewsBriefing.
Import Js.

Record t := {
  generatedAt : jsstring;
  asset : jsstring;
  hours : float;
  posture : jsstring;
  sentiment : NewsArticle.Sentiment;
  impactScore : float;
  volatilityScore : float;
  aiUsed : bool;
  briefing : jsstring;
  strategyHints : list jsstring;
  highImpact : list NewsArticle.t;
  disclaimer : jsstring
}.

End NewsBriefing.

Module Dashboard.
Import Js UrlEncoded News.

(** [a === b] on strings. *)
Fixpoint strictEq (a b : jsstring) : bool :=
  match a, b with
  | [], [] => true
  | x :: a', y :: b' => (x =? y)%N && strictEq a' b'
  | _, _ => false
  end.

(** *** Derived values (lines 140, 146, 500-509) *)

Definition filteredNews (news : list NewsArticle.t) : list NewsArticle.t := news.

(** [Set.prototype.add]: a value already present is not added again. *)
Definition setAdd (set : list jsstring) (value : jsstring) : list jsstring :=
  if existsb (strictEq value) set then set else set ++ [value].

(** [new Set(iterable)], as the list of its values in insertion order. *)
Definition newSet (values : list jsstring) : list jsstring :=
  fold_left setAdd values [].

Definition sourcesCount (news : list NewsArticle.t) : nat :=
  List.length (newSet (map NewsArticle.source news)).

(** The verdict beside the sentiment bar. *)
Definition sentimentVerdict (news : list NewsArticle.t) : jsstring :=
  if (0 <? List.length news)%nat then
    if (bearishCount news <? bullishCount news)%nat then js "Bullish Bias"
    else if (bullishCount news <? bearishCount news)%nat then js "Bearish Bias"
    else js "Mixed Sentiment"
  else js "No Data".

(** *** Filter buttons and search box (lines 317-358) *)

Record Button := {
  testid : jsstring;
  variant : jsstring;
  className : jsstring;
  caption : jsstring;
  onClick : State -> State
}.

Definition setSelectedAsset (value : jsstring) (st : State) : State :=
  {| selectedCategory := selectedCategory st;
     selectedAsset := value;
     searchText := searchText st |}.

Definition setSelectedCategory (value : jsstring) (st : State) : State :=
  {| selectedCategory := value;
     selectedAsset := selectedAsset st;
     searchText := searchText st |}.

Definition setSearchText (value : jsstring) (st : State) : State :=
  {| selectedCategory := selectedCategory st;
     selectedAsset := selectedAsset st;
     searchText := value |}.

Definition assetButton (st : State) (a : AssetFilter) : Button :=
  {| testid := js "button-asset-" ++ key a;
     variant := if strictEq (selectedAsset st) (key a)
                then js "default" else js "outline";
     className := if negb (strictEq (selectedAsset st) (key a))
                  then js "border-white/10 text-white/60" else [];
     caption := label a;
     onClick := setSelectedAsset (key a) |}.

Section Buttons.
Variable toUpperCase : jsstring -> jsstring.

Definition assetButtons (bot : option Bot) (st : State) : list Button :=
  map (assetButton st) (assets toUpperCase bot).

(** The caption is [cat.charAt(0).toUpperCase() + cat.slice(1)]. *)
Definition categoryButton (st : State) (cat : jsstring) : Button :=
  {| testid := js "button-filter-" ++ cat;
     variant := if strictEq (selectedCategory st) cat
                then js "default" else js "outline";
     className := if negb (strictEq (selectedCategory st) cat)
                  then js "border-white/10 text-white/60" else [];
     caption := toUpperCase (firstn 1 cat) ++ skipn 1 cat;
     onClick := setSelectedCategory cat |}.

Definition categoryButtons (st : State) : list Button :=
  map (categoryButton st) categories.
End Buttons.

(** *** Market briefing card (lines 192-226) *)

Inductive BadgeValue :=
| Score (value : float)
| Placeholder (text : jsstring).

Record BriefingCard := {
  aiBadge : bool;
  postureBadge : jsstring;
  impactBadge : BadgeValue;
  volatilityBadge : BadgeValue;
  sourcesBadge : nat;
  narrative : jsstring;
  (* the hints, in order, and the disclaimer under them *)
  hintsBlock : option (list jsstring * jsstring)
}.

(** The em dash shown for a missing value. *)
Definition dash : jsstring := [0x2014%N].

Definition briefingCard (briefing : option NewsBriefing.t)
    (news : list NewsArticle.t) : BriefingCard :=
  {| aiBadge :=
       match briefing with Some b => NewsBriefing.aiUsed b | None => false end;
     postureBadge :=
       match briefing with Some b => NewsBriefing.posture b | None => dash end;
     impactBadge :=
       match briefing with
       | Some b => Score (NewsBriefing.impactScore b)
       | None => Placeholder dash
       end;
     volatilityBadge :=
       match briefing with
       | Some b => Score (NewsBriefing.volatilityScore b)
       | None => Placeholder dash
       end;
     sourcesBadge := sourcesCount news;
     narrative :=
       match briefing with
       | Some b => NewsBriefing.briefing b
       | None => js "Loading briefing" ++ [0x2026%N]
       end;
     hintsBlock :=
       match briefing with
       | Some b =>
           if (0 <? List.length (NewsBriefing.strategyHints b))%nat
           then Some (NewsBriefing.strategyHints b, NewsBriefing.disclaimer b)
           else None
       | None => None
       end |}.

(** *** The notice under the alert cards (lines 259-261)

    [alerts?.alerts?.length === 0]: shown for a response without alerts,
    with the number of minutes the response names. *)
Definition alertsEmptyNotice (alerts : option NewsAlerts.t) : option float :=
  match alerts with
  | Some r =>
      if (List.length (NewsAlerts.alerts r) =? 0)%nat
      then Some (NewsAlerts.minutes r) else None
  | None => None
  end.

(** *** Latest headlines (lines 368-470) *)

Definition importanceColors (i : NewsArticle.Importance) : jsstring :=
  match i with
  | NewsArticle.high => js "bg-amber-500/20 text-amber-400"
  | NewsArticle.medium => js "bg-blue-500/20 text-blue-400"
  | NewsArticle.low => js "bg-slate-500/20 text-slate-400"
  end.

Definition sentimentColors (s : NewsArticle.Sentiment) : jsstring :=
  match s with
  | NewsArticle.bullish => js "text-green-400 bg-green-500/10 border-green-500/20"
  | NewsArticle.bearish => js "text-red-400 bg-red-500/10 border-red-500/20"
  | NewsArticle.neutral => js "text-slate-400 bg-slate-500/10 border-slate-500/20"
  end.

Record HeadlineCard := {
  headlineKey : jsstring;
  headlineTestid : jsstring;
  (* [index * 0.05] *)
  delay : float;
  importanceBadge : NewsArticle.Importance;
  importanceClass : jsstring;
  zapIcon : bool;
  categoryBadge : jsstring;
  sentimentBadge : NewsArticle.Sentiment;
  sentimentClass : jsstring;
  trendingUpIcon : bool;
  trendingDownIcon : bool;
  impact : float;
  impactBadgeLabel : Label;
  href : jsstring;
  headline : jsstring;
  summaryText : jsstring;
  timeAgo : jsstring;
  sourceText : jsstring;
  vol : float;
  assetBadges : list jsstring;
  reasonTags : list jsstring
}.

Inductive Headlines :=
| Spinner
| NoArticles
| Cards (cards : list HeadlineCard).

(** [array.map((x, index) => f(x, index))], counting from [index]. *)
Fixpoint mapIndexed {A B : Type} (f : A -> nat -> B) (index : nat) (l : list A)
  : list B :=
  match l with
  | [] => []
  | x :: r => f x index :: mapIndexed f (S index) r
  end.

Section Headlines.
Variable getTime : jsstring -> option Z.

Definition headlineCard (now : Z) (article : NewsArticle.t) (index : nat)
  : HeadlineCard :=
  {| headlineKey := NewsArticle.id article;
     headlineTestid := js "card-news-" ++ NewsArticle.id article;
     delay := (number index * 0x1.999999999999ap-5)%float;
     importanceBadge := NewsArticle.importance article;
     importanceClass := importanceColors (NewsArticle.importance article);
     zapIcon :=
       match NewsArticle.importance article with
       | NewsArticle.high => true
       | _ => false
       end;
     categoryBadge := NewsArticle.category article;
     sentimentBadge := NewsArticle.sentiment article;
     sentimentClass := sentimentColors (NewsArticle.sentiment article);
     trendingUpIcon :=
       NewsArticle.sentiment_eqb (NewsArticle.sentiment article) NewsArticle.bullish;
     trendingDownIcon :=
       NewsArticle.sentiment_eqb (NewsArticle.sentiment article) NewsArticle.bearish;
     impact := NewsArticle.impactScore article;
     impactBadgeLabel := impactLabel article;
     href := NewsArticle.url article;
     headline := NewsArticle.title article;
     summaryText := NewsArticle.summary article;
     timeAgo := formatTimeAgo getTime now (NewsArticle.timestamp article);
     sourceText := NewsArticle.source article;
     vol := NewsArticle.volatilityScore article;
     assetBadges :=
       if (0 <? List.length (NewsArticle.assets article))%nat
       then NewsArticle.assets article else [];
     reasonTags := reasonBadges article |}.

(** [isLoading ? spinner : filteredNews.length === 0 ? notice : cards] *)
Definition headlines (now : Z) (isLoading : bool) (news : list NewsArticle.t)
  : Headlines :=
  if isLoading then Spinner
  else if (List.length (filteredNews news) =? 0)%nat then NoArticles
  else Cards (mapIndexed (headlineCard now) 0 (filteredNews news)).
End Headlines.

End Dashboard.

(** ** Reference notions the properties are stated against *)

Module Reference.
Import Js.

(** "The number of articles whose sentiment field is [s]", by counting
    down the list. *)
Inductive articlesWithSentiment (s : NewsArticle.Sentiment)
  : list NewsArticle.t -> nat -> Prop :=
| aws_nil : articlesWithSentiment s [] 0
| aws_hit a l n :
    NewsArticle.sentiment a = s ->
    articlesWithSentiment s l n -> articlesWithSentiment s (a :: l) (S n)
| aws_miss a l n :
    NewsArticle.sentiment a <> s ->
    articlesWithSentiment s l n -> articlesWithSentiment s (a :: l) n.

(** The exact value of a double, times 2^52, when that is an integer
    (always so for a double that is 0 or at least 1 in magnitude). *)
Definition scaled52 (f : float) : option Z :=
  match Prim2SF f with
  | S754_zero _ => Some 0%Z
  | S754_finite sign m e =>
      if (0 <=? e + 52)%Z
      then Some ((if sign then -1 else 1) * Z.shiftl (Zpos m) (e + 52))%Z
      else None
  | _ => None
  end.

(** The exact sum of three doubles minus 100, times 2^52. *)
Definition excessOver100 (ws : float * float * float) : option Z :=
  let '(a, b, c) := ws in
  match scaled52 a, scaled52 b, scaled52 c with
  | Some x, Some y, Some z => Some (x + y + z - 100 * 2 ^ 52)%Z
  | _, _, _ => None
  end.

(** The three doubles sum to 100 within [D / 2^52]. *)
Definition sumNear100 (D : Z) (ws : float * float * float) : bool :=
  match excessOver100 ws with
  | Some d => (Z.abs d <=? D)%Z
  | None => false
  end.

(** The width computed for [count] articles out of [total] is within
    [E / 2^52] of the exact percentage [100 * count / total]; stated over
    the integers, both sides multiplied by [2^52 * total]. *)
Definition widthNearExact (E : Z) (total count : nat) : bool :=
  match scaled52 (News.barWidth count total) with
  | Some x =>
      (Z.abs (x * Z.of_nat total - 100 * 2 ^ 52 * Z.of_nat count)
       <=? E * Z.of_nat total)%Z
  | None => false
  end.

Definition widthsNearExact (E : Z) (total : nat) : bool :=
  forallb (widthNearExact E total) (seq 0 (S total)).

(** An article of a given sentiment, other fields blank. *)
Definition articleOf (s : NewsArticle.Sentiment) : NewsArticle.t :=
  {| NewsArticle.id := []; NewsArticle.title := []; NewsArticle.summary := [];
     NewsArticle.sentiment := s; NewsArticle.category := [];
     NewsArticle.assets := []; NewsArticle.timestamp := [];
     NewsArticle.source := []; NewsArticle.importance := NewsArticle.low;
     NewsArticle.url := []; NewsArticle.impactScore := 0;
     NewsArticle.volatilityScore := 0; NewsArticle.biasScore := 0;
     NewsArticle.reasons := None |}.

End Reference.

(** ** Further notions used in the statements *)

Module Notions.
Import Js.

(** A string made of white space only (the empty string included). *)
Definition allWhiteSpace (s : jsstring) : bool := forallb isWhiteSpace s.

(** The characters a request URL is made of: ASCII letters and digits and
    [/ ? = & % + * - . _]. *)
Definition urlChar (c : N) : bool :=
  ((0x30 <=? c) && (c <=? 0x39) || (0x41 <=? c) && (c <=? 0x5A)
   || (0x61 <=? c) && (c <=? 0x7A)
   || (c =? 0x2F) || (c =? 0x3F) || (c =? 0x3D) || (c =? 0x26)
   || (c =? 0x25) || (c =? 0x2B)
   || (c =? 0x2A) || (c =? 0x2D) || (c =? 0x2E) || (c =? 0x5F))%N.

(** A double between 0 and 100, bounds included. *)
Definition isPercentage (w : float) : bool := ((0 <=? w) && (w <=? 100))%float.

(** The widths computed for every tally out of [total] are percentages. *)
Definition widthsArePercentages (total : nat) : bool :=
  forallb (fun count => isPercentage (News.barWidth count total)) (seq 0 (S total)).

(** [P] holds of every element of the list, as one conjunction. *)
Fixpoint conjunction {A : Type} (P : A -> Prop) (l : list A) : Prop :=
  match l with
  | [] => True
  | x :: r => P x /\ conjunction P r
  end.

End Notions.

(** * Properties *)

(** ** The urlencoded serializer and parser are inverse *)

Section UrlEncodedFacts.
Import Js UrlEncoded.
Local Open Scope char_scope.

Lemma encodeByte_plain b : forallb plainChar (encodeByte b) = true.
Proof. destruct b as [[] [] [] [] [] [] [] []]; reflexivity. Qed.

Lemma encodeBytes_plain bs : forallb plainChar (encodeBytes bs) = true.
Proof.
  induction bs as [|b bs IH]; [reflexivity|].
  unfold encodeBytes in *; simpl.
  now rewrite forallb_app, encodeByte_plain, IH.
Qed.

Lemma decode_encodeByte b rest :
  decodeComponent (encodeByte b ++ rest) = b :: decodeComponent rest.
Proof. destruct b as [[] [] [] [] [] [] [] []]; reflexivity. Qed.

Lemma decode_encodeBytes bs : decodeComponent (encodeBytes bs) = bs.
Proof.
  induction bs as [|b bs IH]; [reflexivity|].
  unfold encodeBytes in *; simpl.
  now rewrite decode_encodeByte, IH.
Qed.

Lemma plainChar_isNot sep a :
  In sep ["&"; "="; "#"] ->
  forallb plainChar a = true -> forallb (isNot sep) a = true.
Proof.
  intros Hsep H. rewrite forallb_forall in *. intros c Hc.
  specialize (H c Hc). unfold plainChar in H.
  apply andb_prop in H as [H _]; apply andb_prop in H as [H H3];
    apply andb_prop in H as [H1 H2].
  simpl in Hsep; unfold isNot.
  destruct Hsep as [<-|[<-|[<-|[]]]]; assumption.
Qed.

Lemma plainChar_ascii a :
  forallb plainChar a = true -> forallb (fun c => (N_of_ascii c <? 128)%N) a = true.
Proof.
  intros H. rewrite forallb_forall in *. intros c Hc.
  specialize (H c Hc). unfold plainChar in H.
  now apply andb_prop in H as [_ H].
Qed.

Lemma splitFirst_app sep a b :
  forallb (isNot sep) a = true -> splitFirst sep (a ++ sep :: b) = (a, b).
Proof.
  induction a as [|c a IH]; simpl; intros H.
  - now rewrite Ascii.eqb_refl.
  - apply andb_prop in H as [Hc Ha]. unfold isNot in Hc.
    apply negb_true_iff in Hc. now rewrite Hc, IH.
Qed.

Lemma splitOn_single sep a :
  forallb (isNot sep) a = true -> splitOn sep a = [a].
Proof.
  induction a as [|c a IH]; simpl; intros H; [reflexivity|].
  apply andb_prop in H as [Hc Ha]. unfold isNot in Hc.
  apply negb_true_iff in Hc. now rewrite Hc, IH.
Qed.

Lemma splitOn_app sep a r :
  forallb (isNot sep) a = true -> splitOn sep (a ++ sep :: r) = a :: splitOn sep r.
Proof.
  induction a as [|c a IH]; simpl; intros H.
  - now rewrite Ascii.eqb_refl.
  - apply andb_prop in H as [Hc Ha]. unfold isNot in Hc.
    apply negb_true_iff in Hc. now rewrite Hc, IH.
Qed.

Lemma encodePair_plain sep p :
  In sep ["&"; "#"] -> forallb (isNot sep) (encodePair p) = true.
Proof.
  intros Hsep. unfold encodePair. rewrite forallb_app. simpl.
  assert (In sep ["&"; "="; "#"]) as Hin by (simpl in *; tauto).
  rewrite !(plainChar_isNot _ _ Hin (encodeBytes_plain _)).
  simpl in Hsep. destruct Hsep as [<-|[<-|[]]]; reflexivity.
Qed.

Lemma encodePair_ascii p :
  forallb (fun c => (N_of_ascii c <? 128)%N) (encodePair p) = true.
Proof.
  unfold encodePair. rewrite forallb_app. simpl.
  now rewrite !(plainChar_ascii _ (encodeBytes_plain _)).
Qed.

Lemma encodePair_nonEmpty p : nonEmpty (encodePair p) = true.
Proof. unfold encodePair. now destruct (encodeBytes (fst p)). Qed.

Lemma parsePair_encodePair p : parsePair (encodePair p) = p.
Proof.
  unfold parsePair, encodePair.
  rewrite splitFirst_app.
  - rewrite !decode_encodeBytes. now destruct p.
  - apply plainChar_isNot; [simpl; tauto | apply encodeBytes_plain].
Qed.

Lemma serialize_cons p p' r :
  serialize (p :: p' :: r) = encodePair p ++ "&" :: serialize (p' :: r).
Proof. reflexivity. Qed.

Lemma serialize_forall (P : ascii -> bool) l :
  (forall p, forallb P (encodePair p) = true) -> P "&" = true ->
  forallb P (serialize l) = true.
Proof.
  intros Hp Hamp. induction l as [|p [|p' r] IH]; [reflexivity | apply Hp |].
  rewrite serialize_cons, forallb_app.
  change (forallb P ("&" :: serialize (p' :: r)))
    with (P "&" && forallb P (serialize (p' :: r))).
  now rewrite Hp, Hamp, IH.
Qed.

(** Parsing what the serializer wrote gives back the tuples, in order. *)
Lemma parse_serialize l : parse (serialize l) = l.
Proof.
  unfold parse. fold nonEmpty.
  induction l as [|p [|p' r] IH]; [reflexivity | |].
  - change (serialize [p]) with (encodePair p).
    rewrite splitOn_single by (apply encodePair_plain; simpl; tauto).
    cbn [filter]. rewrite encodePair_nonEmpty. cbn [map].
    now rewrite parsePair_encodePair.
  - rewrite serialize_cons.
    rewrite splitOn_app by (apply encodePair_plain; simpl; tauto).
    cbn [filter]. rewrite encodePair_nonEmpty. cbn [map].
    now rewrite parsePair_encodePair, IH.
Qed.

(** An ASCII string is its own UTF-8 encoding. *)
Lemma utf8Encode_cons_ascii c r :
  (c < 0x80)%N -> utf8Encode (c :: r) = ascii_of_N c :: utf8Encode r.
Proof.
  intros Hc.
  assert (isHighSurrogate c = false) as Hhigh.
  { unfold isHighSurrogate. apply andb_false_iff. left. apply N.leb_gt. lia. }
  assert (isLowSurrogate c = false) as Hlow.
  { unfold isLowSurrogate. apply andb_false_iff. left. apply N.leb_gt. lia. }
  assert (utf8CodePoint c = [ascii_of_N c]) as Hpoint.
  { unfold utf8CodePoint. apply N.ltb_lt in Hc. now rewrite Hc. }
  cbn [utf8Encode]. rewrite Hhigh, Hlow, Hpoint. reflexivity.
Qed.

Lemma utf8Encode_ascii bs :
  forallb (fun c => (N_of_ascii c <? 128)%N) bs = true ->
  utf8Encode (map N_of_ascii bs) = bs.
Proof.
  induction bs as [|b bs IH]; cbn [map forallb]; intros H; [reflexivity|].
  apply andb_prop in H as [Hb Hbs]. apply N.ltb_lt in Hb.
  rewrite utf8Encode_cons_ascii by exact Hb.
  now rewrite ascii_N_embedding, IH.
Qed.

Lemma beforeFirst_absent sep s :
  forallb (fun c => negb (c =? sep)%N) s = true -> beforeFirst sep s = s.
Proof.
  induction s as [|c s IH]; cbn [beforeFirst forallb]; intros H; [reflexivity|].
  apply andb_prop in H as [Hc Hs]. apply negb_true_iff in Hc.
  now rewrite Hc, IH.
Qed.

Lemma afterFirst_app sep path rest :
  forallb (fun c => negb (c =? sep)%N) path = true ->
  afterFirst sep (path ++ sep :: rest) = rest.
Proof.
  induction path as [|c path IH]; cbn [afterFirst app forallb]; intros H.
  - now rewrite N.eqb_refl.
  - apply andb_prop in H as [Hc Hp]. apply negb_true_iff in Hc.
    now rewrite Hc, IH.
Qed.

Lemma isNot_codeUnits sep bs :
  forallb (isNot sep) bs = true ->
  forallb (fun c => negb (c =? N_of_ascii sep)%N) (map N_of_ascii bs) = true.
Proof.
  induction bs as [|b bs IH]; cbn [map forallb]; intros H; [reflexivity|].
  apply andb_prop in H as [Hb Hbs]. rewrite (IH Hbs), andb_true_r.
  unfold isNot in Hb. apply negb_true_iff, Ascii.eqb_neq in Hb.
  apply negb_true_iff, N.eqb_neq. intros E. apply Hb.
  now rewrite <- (ascii_N_embedding b), E, ascii_N_embedding.
Qed.

(** The parameters read back from [path?query], when the query is the
    [toString] of a parameter list: the UTF-8 encoded names and values. *)
Lemma searchParams_toString path params :
  isPath path = true ->
  searchParams (path ++ 0x3F%N :: toString params) = map utf8Pair params.
Proof.
  intros Hpath. apply andb_prop in Hpath as [Hquery Hfragment].
  unfold searchParams, urlQuery.
  rewrite beforeFirst_absent.
  - rewrite afterFirst_app by assumption. unfold toString.
    rewrite utf8Encode_ascii; [apply parse_serialize|].
    apply serialize_forall; [apply encodePair_ascii | reflexivity].
  - rewrite forallb_app. cbn [forallb]. rewrite Hfragment. cbn [andb].
    change 0x23%N with (N_of_ascii "#"). unfold toString.
    apply isNot_codeUnits, serialize_forall; [|reflexivity].
    intros p. apply encodePair_plain. simpl; tauto.
Qed.

End UrlEncodedFacts.

(** ** Request URLs *)

Section RequestUrls.
Import Js UrlEncoded News.

Lemma searchParams_newsUrl st :
  searchParams (newsUrl st) = map utf8Pair (newsParams st).
Proof.
  change (newsUrl st) with (js "/api/news" ++ 0x3F%N :: toString (newsParams st)).
  now apply searchParams_toString.
Qed.

Lemma searchParams_briefingUrl st :
  searchParams (briefingUrl st) = map utf8Pair (briefingParams st).
Proof.
  change (briefingUrl st)
    with (js "/api/news/briefing" ++ 0x3F%N :: toString (briefingParams st)).
  now apply searchParams_toString.
Qed.

Lemma searchParams_alertsUrl st :
  searchParams (alertsUrl st) = map utf8Pair (alertsParams st).
Proof.
  change (alertsUrl st)
    with (js "/api/news/alerts" ++ 0x3F%N :: toString (alertsParams st)).
  now apply searchParams_toString.
Qed.

(** C3. For every state of the selected asset, category and search text,
    the parameters read back from the news URL are exactly asset, category,
    hours=48 and limit=80, followed by q (the trimmed search text) exactly
    when that text is non-empty; the briefing URL carries exactly asset and
    hours=24; the alerts URL exactly asset, minutes=180 and minImpact=75.
    Names and values are compared as UTF-8 bytes. *)
Theorem request_urls_carry_exact_parameters (st : State) :
  let q := trim (searchText st) in
  searchParams (newsUrl st) =
    [(bytes "asset", utf8Encode (selectedAsset st));
     (bytes "category", utf8Encode (selectedCategory st));
     (bytes "hours", bytes "48");
     (bytes "limit", bytes "80")]
    ++ (if truthy q then [(bytes "q", utf8Encode q)] else [])
  /\ (In (bytes "q") (map fst (searchParams (newsUrl st))) <-> q <> [])
  /\ searchParams (briefingUrl st) =
       [(bytes "asset", utf8Encode (selectedAsset st)); (bytes "hours", bytes "24")]
  /\ searchParams (alertsUrl st) =
       [(bytes "asset", utf8Encode (selectedAsset st));
        (bytes "minutes", bytes "180");
        (bytes "minImpact", bytes "75")].
Proof.
  intros q.
  assert (searchParams (newsUrl st) =
    [(bytes "asset", utf8Encode (selectedAsset st));
     (bytes "category", utf8Encode (selectedCategory st));
     (bytes "hours", bytes "48");
     (bytes "limit", bytes "80")]
    ++ (if truthy q then [(bytes "q", utf8Encode q)] else [])) as Hnews.
  { rewrite searchParams_newsUrl. unfold newsParams. fold q.
    rewrite map_app. destruct (truthy q); reflexivity. }
  repeat split.
  - exact Hnews.
  - rewrite Hnews. destruct q as [|c q']; simpl; [|discriminate].
    intros [H|[H|[H|[H|[]]]]]; discriminate H.
  - intros Hq. rewrite Hnews. destruct q as [|c q']; [congruence|].
    simpl. tauto.
  - now rewrite searchParams_briefingUrl.
  - now rewrite searchParams_alertsUrl.
Qed.

(** The asset keys of the filter buttons do not depend on the bot. *)
Lemma assets_keys toUpperCase bot :
  map key (assets toUpperCase bot) =
    [js "FOR_YOU"; js "BTC"; js "ETH"; js "XRP"; js "ALL"].
Proof. reflexivity. Qed.

Lemma reachable_selectedAsset toUpperCase st :
  reachable toUpperCase st ->
  In (selectedAsset st) [js "FOR_YOU"; js "BTC"; js "ETH"; js "XRP"; js "ALL"].
Proof.
  induction 1 as [|st st' _ IH Hstep].
  - simpl. auto.
  - destruct Hstep as [st bot a Ha| |]; try exact IH.
    cbn [selectedAsset]. rewrite <- (assets_keys toUpperCase bot).
    now apply in_map.
Qed.

(** C1 (as the code has it). In every state the user can reach, the asset
    parameter of each of the three request URLs is the selected filter key,
    sent as it is: one of FOR_YOU, BTC, ETH, XRP, ALL. *)
Theorem asset_parameter_is_selected_key
    (toUpperCase : jsstring -> jsstring) (st : State) :
  reachable toUpperCase st ->
  exists k : string,
    In k ["FOR_YOU"; "BTC"; "ETH"; "XRP"; "ALL"]%string
    /\ selectedAsset st = js k
    /\ getParam "asset" (newsUrl st) = Some (bytes k)
    /\ getParam "asset" (briefingUrl st) = Some (bytes k)
    /\ getParam "asset" (alertsUrl st) = Some (bytes k).
Proof.
  intros Hreach. apply reachable_selectedAsset in Hreach.
  assert (forall k : string, selectedAsset st = js k ->
            utf8Encode (js k) = bytes k ->
            getParam "asset" (newsUrl st) = Some (bytes k)
            /\ getParam "asset" (briefingUrl st) = Some (bytes k)
            /\ getParam "asset" (alertsUrl st) = Some (bytes k)) as Hget.
  { intros k Hk Hutf. unfold getParam.
    rewrite searchParams_newsUrl, searchParams_briefingUrl, searchParams_alertsUrl.
    unfold newsParams, briefingParams, alertsParams. rewrite map_app.
    cbn [map app]. unfold utf8Pair. cbn [fst snd]. rewrite Hk, Hutf.
    repeat split; reflexivity. }
  simpl in Hreach.
  destruct Hreach as [H|[H|[H|[H|[H|[]]]]]]; symmetry in H;
    [exists "FOR_YOU"%string | exists "BTC"%string | exists "ETH"%string
    | exists "XRP"%string | exists "ALL"%string];
    (split; [simpl; tauto | split; [exact H | apply Hget; [exact H | reflexivity]]]).
Qed.

Lemma asset_parameter_is_selected_key_witness :
  exists k : string,
    In k ["FOR_YOU"; "BTC"; "ETH"; "XRP"; "ALL"]%string
    /\ selectedAsset initialState = js k
    /\ getParam "asset" (newsUrl initialState) = Some (bytes k)
    /\ getParam "asset" (briefingUrl initialState) = Some (bytes k)
    /\ getParam "asset" (alertsUrl initialState) = Some (bytes k).
Proof.
  apply (asset_parameter_is_selected_key (fun s => s) initialState).
  apply reachable_init.
Defined.

(** C1 (as stated) fails: on the first render, with a bot trading ETH/USDT
    (base ticker ETH, already upper case), the three URLs carry
    asset=FOR_YOU, not ETH. *)
Lemma initial_urls_carry_FOR_YOU :
  botBaseAsset (fun s => s) (Some {| symbol := js "ETH/USDT" |}) = js "ETH"
  /\ newsUrl initialState
      = js "/api/news?asset=FOR_YOU&category=all&hours=48&limit=80"
  /\ briefingUrl initialState = js "/api/news/briefing?asset=FOR_YOU&hours=24"
  /\ alertsUrl initialState
      = js "/api/news/alerts?asset=FOR_YOU&minutes=180&minImpact=75"
  /\ getParam "asset" (newsUrl initialState) = Some (bytes "FOR_YOU")
  /\ getParam "asset" (briefingUrl initialState) = Some (bytes "FOR_YOU")
  /\ getParam "asset" (alertsUrl initialState) = Some (bytes "FOR_YOU").
Proof. repeat split; vm_compute; reflexivity. Qed.

(** C2 (as the code has it). The category filter values offered are exactly
    all, market, regulation, technology, defi, security and adoption; the
    category other has no button. *)
Theorem categories_offered :
  (forall c : jsstring,
     In c categories <->
     c = js "all" \/
     In c [js "market"; js "regulation"; js "technology"; js "defi";
           js "security"; js "adoption"])
  /\ ~ In (js "other") categories.
Proof.
  split.
  - intros c. unfold categories. simpl. intuition congruence.
  - intros H. vm_compute in H. intuition discriminate.
Qed.

(** C2 (as stated) fails: other belongs to the enumerated category set and
    is not among the selectable values. *)
Lemma category_other_not_offered :
  ~ (forall c : jsstring,
       In c categories <->
       c = js "all" \/
       In c [js "market"; js "regulation"; js "technology"; js "defi";
             js "security"; js "adoption"; js "other"]).
Proof.
  intros H. destruct (H (js "other")) as [_ H2].
  assert (In (js "other") categories) as Hin by (apply H2; simpl; tauto).
  vm_compute in Hin. intuition discriminate.
Qed.

End RequestUrls.

(** ** Sentiment tallies and the sentiment bar *)

Section Tallies.
Import Js News Reference.

Lemma sentiment_eqb_eq a b : NewsArticle.sentiment_eqb a b = true <-> a = b.
Proof. destruct a, b; simpl; split; intros H; congruence. Qed.

Lemma countSentiment_cons s a l :
  countSentiment s (a :: l) =
    if NewsArticle.sentiment_eqb (NewsArticle.sentiment a) s
    then S (countSentiment s l) else countSentiment s l.
Proof.
  unfold countSentiment. simpl.
  now destruct (NewsArticle.sentiment_eqb (NewsArticle.sentiment a) s).
Qed.

Lemma countSentiment_counts s l :
  articlesWithSentiment s l (countSentiment s l).
Proof.
  induction l as [|a l IH]; [constructor|].
  rewrite countSentiment_cons.
  destruct (NewsArticle.sentiment_eqb (NewsArticle.sentiment a) s) eqn:E.
  - apply aws_hit; [now apply sentiment_eqb_eq | exact IH].
  - apply aws_miss; [|exact IH].
    intros H. apply sentiment_eqb_eq in H. congruence.
Qed.

Lemma articlesWithSentiment_unique s l n m :
  articlesWithSentiment s l n -> articlesWithSentiment s l m -> n = m.
Proof.
  intros Hn. revert m.
  induction Hn as [|a l n Ha _ IH|a l n Ha _ IH]; intros m Hm;
    inversion Hm; subst; try congruence; auto.
Qed.

Lemma counts_sum news :
  bullishCount news + bearishCount news + neutralCount news = List.length news.
Proof.
  unfold bullishCount, bearishCount, neutralCount.
  induction news as [|a l IH]; [reflexivity|].
  rewrite !countSentiment_cons. simpl List.length.
  destruct (NewsArticle.sentiment a); simpl; lia.
Qed.

(** C4. For every article list, each displayed tally is the number of
    articles whose sentiment field is bullish, bearish, neutral. *)
Theorem tallies_count_articles_by_sentiment (news : list NewsArticle.t) :
  (forall n, articlesWithSentiment NewsArticle.bullish news n <-> n = bullishCount news)
  /\ (forall n, articlesWithSentiment NewsArticle.bearish news n <-> n = bearishCount news)
  /\ (forall n, articlesWithSentiment NewsArticle.neutral news n <-> n = neutralCount news).
Proof.
  repeat split; intros H;
    try (subst n; apply countSentiment_counts);
    eapply articlesWithSentiment_unique; eauto using countSentiment_counts.
Qed.

Lemma widthsNearExact_upTo80 :
  forallb (widthsNearExact 64) (seq 1 80) = true.
Proof. vm_compute. reflexivity. Qed.

Lemma widthNearExact_upTo80 total count :
  1 <= total <= 80 -> count <= total ->
  exists x : Z,
    scaled52 (barWidth count total) = Some x
    /\ (Z.abs (x * Z.of_nat total - 100 * 2 ^ 52 * Z.of_nat count)
        <= 64 * Z.of_nat total)%Z.
Proof.
  intros Htotal Hcount.
  pose proof widthsNearExact_upTo80 as Hall.
  rewrite forallb_forall in Hall.
  assert (widthsNearExact 64 total = true) as Hw by (apply Hall, in_seq; lia).
  unfold widthsNearExact in Hw. rewrite forallb_forall in Hw.
  assert (widthNearExact 64 total count = true) as Hc by (apply Hw, in_seq; lia).
  unfold widthNearExact in Hc.
  destruct (scaled52 (barWidth count total)) as [x|]; [|discriminate].
  exists x. split; [reflexivity|]. now apply Z.leb_le.
Qed.

(** Three values, each within [E] of its share of [K], sum to [K] within
    [3 * E]; everything scaled by the total [T]. *)
Lemma shares_sum (K E T b n r xb xn xr : Z) :
  (0 < T -> b + n + r = T ->
   Z.abs (xb * T - K * b) <= E * T ->
   Z.abs (xn * T - K * n) <= E * T ->
   Z.abs (xr * T - K * r) <= E * T ->
   Z.abs (xb + xn + xr - K) <= 3 * E)%Z.
Proof.
  intros HT Hsum Hb Hn Hr.
  assert ((xb + xn + xr - K) * T
          = (xb * T - K * b) + (xn * T - K * n) + (xr * T - K * r))%Z as Hd
    by (subst T; ring).
  assert (Z.abs ((xb + xn + xr - K) * T) <= 3 * E * T)%Z as Habs
    by (rewrite Hd; lia).
  rewrite Z.abs_mul, (Z.abs_eq T) in Habs by lia.
  apply Z.mul_le_mono_pos_r in Habs; assumption.
Qed.

(** C10 (as the code has it). The three tallies add up to the number of
    articles. The bar widths are the doubles (count / total) * 100: for a
    list of 1 to 80 articles (the limit the news request asks for) their
    exact sum is 100 within 192 / 2^52 = 3 * 2^-46. *)
Theorem tallies_sum_and_widths_near_100 (news : list NewsArticle.t) :
  bullishCount news + bearishCount news + neutralCount news = List.length news
  /\ (1 <= List.length news <= 80 -> sumNear100 192 (barWidths news) = true).
Proof.
  pose proof (counts_sum news) as Hsum.
  split; [exact Hsum|].
  intros Hlen.
  destruct (widthNearExact_upTo80 (List.length news) (bullishCount news))
    as (xb & Eb & Hb); [lia | lia |].
  destruct (widthNearExact_upTo80 (List.length news) (neutralCount news))
    as (xn & En & Hn); [lia | lia |].
  destruct (widthNearExact_upTo80 (List.length news) (bearishCount news))
    as (xr & Er & Hr); [lia | lia |].
  unfold sumNear100, excessOver100, barWidths. rewrite Eb, En, Er.
  apply Z.leb_le.
  apply (shares_sum (100 * 2 ^ 52) 64 (Z.of_nat (List.length news))
           (Z.of_nat (bullishCount news)) (Z.of_nat (neutralCount news))
           (Z.of_nat (bearishCount news))); try assumption; lia.
Qed.

Lemma tallies_sum_and_widths_near_100_witness :
  sumNear100 192
    (barWidths [articleOf NewsArticle.bullish; articleOf NewsArticle.bearish;
                articleOf NewsArticle.neutral]) = true.
Proof.
  apply (tallies_sum_and_widths_near_100
           [articleOf NewsArticle.bullish; articleOf NewsArticle.bearish;
            articleOf NewsArticle.neutral]).
  simpl. lia.
Defined.

(** C10 (as stated) fails: with one bullish, one bearish and one neutral
    article each width is the double 33.333333333333329, below 100/3, and
    the three sum to 100 - 2^-46 = 99.999999999999986, in exact arithmetic
    and in double arithmetic alike. *)
Lemma widths_of_three_do_not_sum_to_100 :
  let news := [articleOf NewsArticle.bullish; articleOf NewsArticle.bearish;
               articleOf NewsArticle.neutral] in
  barWidths news = (0x1.0aaaaaaaaaaaap+5, 0x1.0aaaaaaaaaaaap+5, 0x1.0aaaaaaaaaaaap+5)%float
  /\ excessOver100 (barWidths news) = Some (-64)%Z
  /\ (let '(a, b, c) := barWidths news in (a + b + c =? 100)%float) = false.
Proof. repeat split; vm_compute; reflexivity. Qed.

End Tallies.

(** ** Impact label *)

Section ImpactLabel.
Import Js News.

(** C8. The label is Volatility spike iff volatilityScore >= 70; otherwise
    Risk-on iff biasScore >= 0.25; otherwise Risk-off iff
    biasScore <= -0.25; otherwise Mixed. The volatility test comes first,
    and the label depends on no field but volatilityScore and biasScore. *)
Theorem impactLabel_cases (a : NewsArticle.t) :
  let spike := (70 <=? NewsArticle.volatilityScore a)%float in
  let riskOn := (0.25 <=? NewsArticle.biasScore a)%float in
  let riskOff := (NewsArticle.biasScore a <=? -0.25)%float in
  (text (impactLabel a) = js "Volatility spike" <-> spike = true)
  /\ (text (impactLabel a) = js "Risk-on" <-> spike = false /\ riskOn = true)
  /\ (text (impactLabel a) = js "Risk-off" <->
      spike = false /\ riskOn = false /\ riskOff = true)
  /\ (text (impactLabel a) = js "Mixed" <->
      spike = false /\ riskOn = false /\ riskOff = false)
  /\ (forall b : NewsArticle.t,
        NewsArticle.volatilityScore b = NewsArticle.volatilityScore a ->
        NewsArticle.biasScore b = NewsArticle.biasScore a ->
        impactLabel b = impactLabel a).
Proof.
  intros spike riskOn riskOff.
  assert (forall b : NewsArticle.t,
            NewsArticle.volatilityScore b = NewsArticle.volatilityScore a ->
            NewsArticle.biasScore b = NewsArticle.biasScore a ->
            impactLabel b = impactLabel a) as Hsame.
  { intros b Hv Hb. unfold impactLabel. now rewrite Hv, Hb. }
  assert (text (impactLabel a) =
            if spike then js "Volatility spike"
            else if riskOn then js "Risk-on"
            else if riskOff then js "Risk-off"
            else js "Mixed") as Htext.
  { unfold impactLabel. fold spike riskOn riskOff.
    destruct spike, riskOn, riskOff; reflexivity. }
  rewrite Htext. clearbody spike riskOn riskOff.
  split; [|split; [|split; [|split; [|exact Hsame]]]];
    destruct spike, riskOn, riskOff; split; intros H;
    try (vm_compute in H; discriminate H);
    try (intuition discriminate);
    try reflexivity; repeat split.
Qed.

End ImpactLabel.

(** ** Time since publication *)

Section TimeAgo.
Import Js News.
Local Open Scope Z_scope.

Variable getTime : jsstring -> option Z.

Lemma formatTimeAgo_valid now ts date :
  getTime ts = Some date ->
  formatTimeAgo getTime now ts =
    let mins := (now - date) / 60000 in
    if mins <? 1 then js "Just now"
    else if mins <? 60 then numberToString mins ++ js "m ago"
    else if mins / 60 <? 24 then numberToString (mins / 60) ++ js "h ago"
    else numberToString (mins / 60 / 24) ++ js "d ago".
Proof. intros H. unfold formatTimeAgo. now rewrite H. Qed.

Lemma hours_of_minutes x : x / 60000 / 60 = x / 3600000.
Proof. rewrite Z.div_div by lia. reflexivity. Qed.

Lemma days_of_minutes x : x / 60000 / 60 / 24 = x / 86400000.
Proof. rewrite !Z.div_div by lia. reflexivity. Qed.

End TimeAgo.

(** C5. For an article published at or before the current time, with
    elapsed = now - publication time in milliseconds, the text shown is
    Just now when fewer than 1 whole minute has elapsed, Nm ago with
    N = floor(elapsed minutes) when 1 <= N < 60, Nh ago with
    N = floor(elapsed hours) when 1 <= N < 24, and Nd ago with
    N = floor(elapsed days) in every other case; the time it is computed
    from is the article's timestamp field, on headline cards and alert
    cards alike. *)
Theorem formatTimeAgo_by_elapsed_time
    (getTime : Js.jsstring -> option Z) (now : Z) (a : NewsArticle.t) (date : Z) :
  getTime (NewsArticle.timestamp a) = Some date ->
  (date <= now)%Z ->
  let elapsed := (now - date)%Z in
  let minutes := (elapsed / 60000)%Z in
  let hours := (elapsed / 3600000)%Z in
  let days := (elapsed / 86400000)%Z in
  let shown := News.articleTimeAgo getTime now a in
  (minutes < 1 -> shown = Js.js "Just now")%Z
  /\ (1 <= minutes < 60 -> shown = Js.numberToString minutes ++ Js.js "m ago")%Z
  /\ (1 <= hours < 24 -> shown = Js.numberToString hours ++ Js.js "h ago")%Z
  /\ (~ (minutes < 1) -> ~ (1 <= minutes < 60) -> ~ (1 <= hours < 24) ->
      shown = Js.numberToString days ++ Js.js "d ago")%Z
  /\ News.cardTimeAgo (News.alertCard getTime now a) = shown.
Proof.
  intros Hget Hle elapsed minutes hours days shown.
  assert (shown =
    if (minutes <? 1)%Z then Js.js "Just now"
    else if (minutes <? 60)%Z then Js.numberToString minutes ++ Js.js "m ago"
    else if (hours <? 24)%Z then Js.numberToString hours ++ Js.js "h ago"
    else Js.numberToString days ++ Js.js "d ago") as Hshown.
  { unfold shown, minutes, hours, days, elapsed, News.articleTimeAgo.
    rewrite (formatTimeAgo_valid _ _ _ _ Hget). cbv zeta.
    now rewrite days_of_minutes, hours_of_minutes. }
  assert (hours = minutes / 60)%Z as Hh
    by (unfold hours, minutes; now rewrite hours_of_minutes).
  assert (0 <= minutes)%Z by (apply Z.div_pos; unfold elapsed; lia).
  split; [|split; [|split; [|split; [|reflexivity]]]]; rewrite Hshown.
  - intros H1. apply Z.ltb_lt in H1. now rewrite H1.
  - intros [H1 H2]. apply Z.ltb_ge in H1. apply Z.ltb_lt in H2. now rewrite H1, H2.
  - intros [H1 H2].
    assert (60 <= minutes)%Z.
    { destruct (Z.lt_ge_cases minutes 60) as [Hlt|]; [|assumption].
      rewrite Hh, Z.div_small in H1 by lia. lia. }
    apply Z.ltb_lt in H2.
    assert ((minutes <? 1) = false)%Z as -> by (apply Z.ltb_ge; lia).
    assert ((minutes <? 60) = false)%Z as -> by (apply Z.ltb_ge; lia).
    now rewrite H2.
  - intros H1 H2 H3.
    assert (60 <= minutes)%Z by lia.
    assert (1 <= hours)%Z.
    { rewrite Hh. apply Z.div_le_lower_bound; lia. }
    assert ((minutes <? 1) = false)%Z as -> by (apply Z.ltb_ge; lia).
    assert ((minutes <? 60) = false)%Z as -> by (apply Z.ltb_ge; lia).
    assert ((hours <? 24) = false)%Z as -> by (apply Z.ltb_ge; lia).
    reflexivity.
Qed.

Lemma formatTimeAgo_by_elapsed_time_witness :
  News.articleTimeAgo (fun _ => Some 0%Z) 7500000 (Reference.articleOf NewsArticle.neutral)
  = Js.js "2h ago".
Proof.
  assert (0 <= 7500000)%Z as Hle by lia.
  destruct (formatTimeAgo_by_elapsed_time (fun _ => Some 0%Z) 7500000
              (Reference.articleOf NewsArticle.neutral) 0 eq_refl Hle)
    as (_ & _ & Hhours & _).
  apply Hhours. vm_compute. split; [discriminate | reflexivity].
Defined.

(** C9. For a publication time strictly later than the current time the
    text is Just now. *)
Theorem formatTimeAgo_future
    (getTime : Js.jsstring -> option Z) (now : Z) (timestamp : Js.jsstring) (date : Z) :
  getTime timestamp = Some date ->
  (now < date)%Z ->
  News.formatTimeAgo getTime now timestamp = Js.js "Just now".
Proof.
  intros Hget Hlt. rewrite (formatTimeAgo_valid _ _ _ _ Hget). cbv zeta.
  assert ((now - date) / 60000 < 0)%Z by (apply Z.div_lt_upper_bound; lia).
  assert (((now - date) / 60000 <? 1) = true)%Z as -> by (apply Z.ltb_lt; lia).
  reflexivity.
Qed.

Lemma formatTimeAgo_future_witness :
  News.formatTimeAgo (fun _ => Some 90000%Z) 0 [] = Js.js "Just now".
Proof.
  apply (formatTimeAgo_future (fun _ => Some 90000%Z) 0 [] 90000 eq_refl).
  lia.
Defined.

(** ** Truncated lists *)

Section RenderedLists.
Import Js UrlEncoded News.

(** C6. For every article the reason badges are the first 4 entries of its
    reasons list, in their order (so at most 4); an article whose reasons
    are empty or absent gets none. *)
Theorem reason_badges_first_four (article : NewsArticle.t) :
  let rs := match NewsArticle.reasons article with Some l => l | None => [] end in
  reasonBadges article = firstn 4 rs
  /\ List.length (reasonBadges article) = Nat.min 4 (List.length rs)
  /\ (forall i, nth_error (reasonBadges article) i =
                if (i <? 4)%nat then nth_error rs i else None)
  /\ (rs = [] -> reasonBadges article = []).
Proof.
  intros rs.
  assert (reasonBadges article = firstn 4 rs) as Heq.
  { unfold reasonBadges, rs.
    destruct (NewsArticle.reasons article) as [[|r l]|]; reflexivity. }
  rewrite Heq. split; [reflexivity|]. split; [apply length_firstn|].
  split; [intros i; apply nth_error_firstn|].
  intros ->. reflexivity.
Qed.

(** C7. For every response (or none yet) the alerts panel shows the first
    min(6, number of alerts) entries of the alerts array, in the server's
    order; the alerts request carries asset, minutes and minImpact and no
    limit, whatever the state. *)
Theorem alerts_panel_first_six
    (getTime : jsstring -> option Z) (now : Z) (alerts : option NewsAlerts.t)
    (st : State) :
  let l := match alerts with Some r => NewsAlerts.alerts r | None => [] end in
  alertsPanel getTime now alerts = map (alertCard getTime now) (firstn 6 l)
  /\ List.length (alertsPanel getTime now alerts) = Nat.min 6 (List.length l)
  /\ (forall i, nth_error (alertsPanel getTime now alerts) i =
                if (i <? 6)%nat
                then option_map (alertCard getTime now) (nth_error l i)
                else None)
  /\ map fst (searchParams (alertsUrl st))
     = [bytes "asset"; bytes "minutes"; bytes "minImpact"].
Proof.
  intros l. unfold alertsPanel. fold l.
  split; [reflexivity|]. split; [now rewrite length_map, length_firstn|].
  split.
  - intros i. rewrite nth_error_map, nth_error_firstn.
    now destruct (i <? 6)%nat.
  - now rewrite searchParams_alertsUrl.
Qed.

End RenderedLists.

(** ** Filter state, buttons and search box *)

Section FilterButtons.
Import Js UrlEncoded News Dashboard.

Lemma strictEq_eq a b : strictEq a b = true <-> a = b.
Proof.
  revert b. induction a as [|x a IH]; intros [|y b]; simpl;
    try (split; intros H; (reflexivity || discriminate)).
  rewrite andb_true_iff, N.eqb_eq, IH.
  split; [intros [-> ->]; reflexivity | intros H; inversion H; auto].
Qed.

Lemma strictEq_refl a : strictEq a a = true.
Proof. now apply strictEq_eq. Qed.

Lemma strictEq_neq a b : a <> b -> strictEq a b = false.
Proof.
  intros H. destruct (strictEq a b) eqn:E; [|reflexivity].
  apply strictEq_eq in E. contradiction.
Qed.

Lemma reachable_selectedCategory toUpperCase st :
  reachable toUpperCase st -> In (selectedCategory st) categories.
Proof.
  induction 1 as [|st st' _ IH Hstep].
  - simpl. auto.
  - destruct Hstep as [st bot a Ha|st cat Hcat|st value]; try exact IH.
    exact Hcat.
Qed.

(** X1. The states the user can reach are exactly those whose selected
    asset is one of the five button keys and whose selected category is one
    of the seven offered; the search text is free. *)
Theorem reachable_states (toUpperCase : jsstring -> jsstring) (st : State) :
  reachable toUpperCase st <->
  In (selectedAsset st) [js "FOR_YOU"; js "BTC"; js "ETH"; js "XRP"; js "ALL"]
  /\ In (selectedCategory st) categories.
Proof.
  split.
  - intros H. split;
      [eapply reachable_selectedAsset | eapply reachable_selectedCategory]; eauto.
  - destruct st as [cat asset text]. cbn [selectedAsset selectedCategory].
    intros [Hasset Hcat].
    rewrite <- (assets_keys toUpperCase None) in Hasset.
    apply in_map_iff in Hasset as (a & <- & Ha).
    exact (reachable_step _ _ _
             (reachable_step _ _ _
                (reachable_step _ _ _ (reachable_init toUpperCase)
                   (step_search toUpperCase initialState text))
                (step_category toUpperCase _ cat Hcat))
             (step_asset toUpperCase _ None a Ha)).
Qed.

Lemma split_at_unique_key {A B : Type} (f : A -> B) (l : list A) (x : A) :
  NoDup (map f l) -> In x l ->
  exists pre post,
    l = pre ++ x :: post /\ forall y, In y (pre ++ post) -> f y <> f x.
Proof.
  induction l as [|z l IH]; simpl; intros Hnd Hin; [contradiction|].
  inversion Hnd as [|? ? Hz Hl]; subst.
  destruct Hin as [->|Hin].
  - exists [], l. split; [reflexivity|].
    intros y Hy E. apply Hz. rewrite <- E. now apply in_map.
  - destruct (IH Hl Hin) as (pre & post & -> & Hother).
    exists (z :: pre), post. split; [reflexivity|].
    intros y [<-|Hy]; [|now apply Hother].
    intros E. apply Hz. rewrite E. apply in_map, in_elt.
Qed.

Lemma assets_keys_NoDup toUpperCase bot : NoDup (map key (assets toUpperCase bot)).
Proof.
  rewrite assets_keys.
  repeat constructor; simpl; intros H;
    repeat (destruct H as [H|H]; [vm_compute in H; discriminate H|]); exact H.
Qed.

Lemma categories_NoDup : NoDup categories.
Proof.
  unfold categories.
  repeat constructor; simpl; intros H;
    repeat (destruct H as [H|H]; [vm_compute in H; discriminate H|]); exact H.
Qed.

(** X2. In every state the user can reach, exactly one asset button and
    exactly one category button are highlighted (variant default), the one
    of the selected asset and the one of the selected category; every other
    button of the row is outlined. *)
Theorem one_button_highlighted_per_row
    (toUpperCase : jsstring -> jsstring) (bot : option Bot) (st : State) :
  reachable toUpperCase st ->
  (exists pre b post,
      assetButtons toUpperCase bot st = pre ++ b :: post
      /\ testid b = js "button-asset-" ++ selectedAsset st
      /\ variant b = js "default"
      /\ forall b', In b' (pre ++ post) -> variant b' = js "outline")
  /\ (exists pre b post,
      categoryButtons toUpperCase st = pre ++ b :: post
      /\ testid b = js "button-filter-" ++ selectedCategory st
      /\ variant b = js "default"
      /\ forall b', In b' (pre ++ post) -> variant b' = js "outline").
Proof.
  intros Hreach. split.
  - pose proof (reachable_selectedAsset _ _ Hreach) as Hsel.
    rewrite <- (assets_keys toUpperCase bot) in Hsel.
    apply in_map_iff in Hsel as (a & Hkey & Ha).
    destruct (split_at_unique_key key _ a (assets_keys_NoDup toUpperCase bot) Ha)
      as (pre & post & Hsplit & Hother).
    exists (map (assetButton st) pre), (assetButton st a), (map (assetButton st) post).
    unfold assetButtons. rewrite Hsplit, map_app. cbn [map].
    split; [reflexivity|]. cbn [testid variant assetButton].
    rewrite Hkey, strictEq_refl. split; [reflexivity|]. split; [reflexivity|].
    intros b' Hb'. rewrite <- map_app in Hb'.
    apply in_map_iff in Hb' as (a' & <- & Ha').
    cbn [variant assetButton]. rewrite strictEq_neq; [reflexivity|].
    intros E. apply (Hother a' Ha'). now rewrite <- E.
  - pose proof (reachable_selectedCategory _ _ Hreach) as Hsel.
    assert (NoDup (map (fun c : jsstring => c) categories)) as Hnd
      by (rewrite map_id; apply categories_NoDup).
    destruct (split_at_unique_key (fun c : jsstring => c) _ _ Hnd Hsel)
      as (pre & post & Hsplit & Hother).
    exists (map (categoryButton toUpperCase st) pre),
           (categoryButton toUpperCase st (selectedCategory st)),
           (map (categoryButton toUpperCase st) post).
    unfold categoryButtons. rewrite Hsplit at 1. rewrite map_app. cbn [map].
    split; [reflexivity|]. cbn [testid variant categoryButton].
    rewrite strictEq_refl. split; [reflexivity|]. split; [reflexivity|].
    intros b' Hb'. rewrite <- map_app in Hb'.
    apply in_map_iff in Hb' as (c' & <- & Hc').
    cbn [variant categoryButton]. rewrite strictEq_neq; [reflexivity|].
    intros E. apply (Hother c' Hc'). now rewrite <- E.
Qed.

Lemma one_button_highlighted_per_row_witness :
  exists pre b post,
    assetButtons (fun s => s) None initialState = pre ++ b :: post
    /\ testid b = js "button-asset-" ++ selectedAsset initialState
    /\ variant b = js "default"
    /\ forall b', In b' (pre ++ post) -> variant b' = js "outline".
Proof.
  exact (proj1 (one_button_highlighted_per_row (fun s => s) None initialState
                  (reachable_init _))).
Defined.

(** X3. A click on an asset button is a step of the filter state: it
    selects that button's key and leaves category and search text alone, so
    the next asset parameter of all three request URLs is the key, the
    category and q parameters of the news URL are what they were, and the
    button is the highlighted one. *)
Theorem asset_button_click
    (toUpperCase : jsstring -> jsstring) (bot : option Bot) (st : State)
    (a : AssetFilter) :
  In a (assets toUpperCase bot) ->
  let st' := onClick (assetButton st a) st in
  step toUpperCase st st'
  /\ variant (assetButton st' a) = js "default"
  /\ getParam "asset" (newsUrl st') = Some (utf8Encode (key a))
  /\ getParam "asset" (briefingUrl st') = Some (utf8Encode (key a))
  /\ getParam "asset" (alertsUrl st') = Some (utf8Encode (key a))
  /\ getParam "category" (newsUrl st') = getParam "category" (newsUrl st)
  /\ getParam "q" (newsUrl st') = getParam "q" (newsUrl st).
Proof.
  intros Ha st'.
  split; [exact (step_asset toUpperCase st bot a Ha)|].
  split; [cbn [variant assetButton]; subst st'; cbn; now rewrite strictEq_refl|].
  unfold getParam.
  rewrite !searchParams_newsUrl, searchParams_briefingUrl, searchParams_alertsUrl.
  repeat split; reflexivity.
Qed.

Lemma asset_button_click_witness :
  getParam "asset"
    (newsUrl (onClick (assetButton initialState {| key := js "BTC"; label := js "BTC" |})
                      initialState))
  = Some (bytes "BTC").
Proof.
  refine (proj1 (proj2 (proj2
            (asset_button_click (fun s => s) None initialState
               {| key := js "BTC"; label := js "BTC" |} _)))).
  simpl. tauto.
Defined.

End FilterButtons.

(** ** More on the request URLs *)

Section UrlProperties.
Import Js UrlEncoded News Dashboard Notions.

Lemma trimStart_allWhiteSpace s : allWhiteSpace s = true -> trimStart s = [].
Proof.
  induction s as [|c s IH]; simpl; intros H; [reflexivity|].
  apply andb_prop in H as [Hc Hs]. now rewrite Hc, IH.
Qed.

Lemma trimStart_nil_allWhiteSpace s : trimStart s = [] -> allWhiteSpace s = true.
Proof.
  induction s as [|c s IH]; simpl; intros H; [reflexivity|].
  destruct (isWhiteSpace c); [now apply IH | discriminate].
Qed.

Lemma trimStart_skips pre s :
  allWhiteSpace pre = true -> trimStart (pre ++ s) = trimStart s.
Proof.
  induction pre as [|c pre IH]; simpl; intros H; [reflexivity|].
  apply andb_prop in H as [Hc Hpre]. now rewrite Hc, IH.
Qed.

Lemma trimStart_app s post :
  trimStart s <> [] -> trimStart (s ++ post) = trimStart s ++ post.
Proof.
  induction s as [|c s IH]; simpl; intros H; [contradiction|].
  destruct (isWhiteSpace c); [now apply IH | reflexivity].
Qed.

Lemma allWhiteSpace_rev s : allWhiteSpace s = true -> allWhiteSpace (rev s) = true.
Proof.
  unfold allWhiteSpace. rewrite !forallb_forall.
  intros H c Hc. apply H. now apply in_rev.
Qed.

Lemma trimEnd_skips s post :
  allWhiteSpace post = true -> trimEnd (s ++ post) = trimEnd s.
Proof.
  intros H. unfold trimEnd.
  now rewrite rev_app_distr, trimStart_skips by (now apply allWhiteSpace_rev).
Qed.

Lemma trim_surrounding pre s post :
  allWhiteSpace pre = true -> allWhiteSpace post = true ->
  trim (pre ++ s ++ post) = trim s.
Proof.
  intros Hpre Hpost. unfold trim. rewrite trimStart_skips by assumption.
  destruct (trimStart s) as [|c t] eqn:E.
  - apply trimStart_nil_allWhiteSpace in E.
    rewrite trimStart_allWhiteSpace; [reflexivity|].
    unfold allWhiteSpace in *. now rewrite forallb_app, E, Hpost.
  - rewrite trimStart_app by (rewrite E; discriminate).
    rewrite E. now apply trimEnd_skips.
Qed.

(** X4. White space around the search text does not reach the server: the
    news URL for the text with white space before and after it is the URL
    for the text itself, and a text of white space only gives the URL of
    the empty search, without a q parameter. *)
Theorem newsUrl_ignores_surrounding_white_space
    (st : State) (pre text post : jsstring) :
  allWhiteSpace pre = true -> allWhiteSpace post = true ->
  newsUrl (setSearchText (pre ++ text ++ post) st) = newsUrl (setSearchText text st)
  /\ newsUrl (setSearchText (pre ++ post) st) = newsUrl (setSearchText [] st)
  /\ getParam "q" (newsUrl (setSearchText (pre ++ post) st)) = None.
Proof.
  intros Hpre Hpost.
  assert (forall t, newsUrl (setSearchText (pre ++ t ++ post) st)
                    = newsUrl (setSearchText t st)) as Hsame.
  { intros t. unfold newsUrl, newsParams, setSearchText. cbn [searchText].
    now rewrite trim_surrounding. }
  split; [apply Hsame|].
  assert (newsUrl (setSearchText (pre ++ post) st) = newsUrl (setSearchText [] st))
    as Hempty by apply (Hsame []).
  split; [exact Hempty|].
  rewrite Hempty. unfold getParam. rewrite searchParams_newsUrl. reflexivity.
Qed.

Lemma newsUrl_ignores_surrounding_white_space_witness :
  newsUrl (setSearchText (js "  btc etf " ) initialState)
  = newsUrl (setSearchText (js "btc etf") initialState).
Proof.
  refine (proj1 (newsUrl_ignores_surrounding_white_space initialState
                   (js "  ") (js "btc etf") (js " ") _ _)); reflexivity.
Defined.

Lemma encodeByte_urlChar b :
  forallb (fun c => urlChar (N_of_ascii c)) (encodeByte b) = true.
Proof. destruct b as [[] [] [] [] [] [] [] []]; reflexivity. Qed.

Lemma encodePair_urlChar p :
  forallb (fun c => urlChar (N_of_ascii c)) (encodePair p) = true.
Proof.
  assert (forall bs, forallb (fun c => urlChar (N_of_ascii c)) (encodeBytes bs) = true)
    as Hbytes.
  { induction bs as [|b bs IH]; [reflexivity|].
    unfold encodeBytes in *. simpl.
    now rewrite forallb_app, encodeByte_urlChar, IH. }
  unfold encodePair. rewrite forallb_app. cbn [forallb].
  now rewrite !Hbytes.
Qed.

Lemma toString_urlChar params : forallb urlChar (toString params) = true.
Proof.
  unfold toString.
  assert (forall l, forallb (fun c => urlChar (N_of_ascii c)) l = true ->
                    forallb urlChar (map N_of_ascii l) = true) as Hmap.
  { induction l as [|c l IH]; cbn [map forallb]; intros H; [reflexivity|].
    apply andb_prop in H as [Hc Hl]. now rewrite Hc, IH. }
  apply Hmap, serialize_forall; [apply encodePair_urlChar | reflexivity].
Qed.

(** X5. Whatever the selected asset, category and search text, the three
    request URLs consist only of ASCII letters, digits and the characters
    / ? = & % + * - . _ : no space, quote, [#] or non-ASCII character
    is ever put into a URL. *)
Theorem request_urls_are_url_safe (st : State) :
  forallb urlChar (newsUrl st) = true
  /\ forallb urlChar (briefingUrl st) = true
  /\ forallb urlChar (alertsUrl st) = true.
Proof.
  unfold newsUrl, briefingUrl, alertsUrl.
  rewrite !forallb_app, !toString_urlChar. repeat split; reflexivity.
Qed.

(** X6. The news URL determines the filter it was built from: two states
    with the same news URL have the same selected asset, the same selected
    category and the same trimmed search text, each up to UTF-8 encoding. *)
Theorem newsUrl_determines_filter (st1 st2 : State) :
  newsUrl st1 = newsUrl st2 ->
  utf8Encode (selectedAsset st1) = utf8Encode (selectedAsset st2)
  /\ utf8Encode (selectedCategory st1) = utf8Encode (selectedCategory st2)
  /\ utf8Encode (trim (searchText st1)) = utf8Encode (trim (searchText st2)).
Proof.
  intros H. apply (f_equal searchParams) in H.
  rewrite !searchParams_newsUrl in H. unfold newsParams in H.
  rewrite !map_app in H. cbn [map app] in H. unfold utf8Pair in H.
  cbn [fst snd] in H.
  injection H as Hasset Hcat Hq.
  split; [exact Hasset|]. split; [exact Hcat|].
  destruct (trim (searchText st1)) as [|c1 q1], (trim (searchText st2)) as [|c2 q2];
    cbn [truthy map fst snd] in Hq; try discriminate Hq; [reflexivity|].
  now injection Hq.
Qed.

Lemma newsUrl_determines_filter_witness :
  utf8Encode (trim (js " defi")) = utf8Encode (trim (js "defi  ")).
Proof.
  exact (proj2 (proj2 (newsUrl_determines_filter
                         (setSearchText (js " defi") initialState)
                         (setSearchText (js "defi  ") initialState) eq_refl))).
Defined.

(** X7. The three requests never share a URL: for any states, the news,
    briefing and alerts URLs are pairwise different, so their query keys
    cannot collide. *)
Theorem request_urls_are_distinct (st1 st2 : State) :
  newsUrl st1 <> briefingUrl st2
  /\ newsUrl st1 <> alertsUrl st2
  /\ briefingUrl st1 <> alertsUrl st2.
Proof.
  repeat split; intros H.
  - apply (f_equal (fun url => nth 9 url 0%N)) in H. discriminate H.
  - apply (f_equal (fun url => nth 9 url 0%N)) in H. discriminate H.
  - apply (f_equal (fun url => nth 10 url 0%N)) in H. discriminate H.
Qed.

Lemma beforeFirst_app sep a b :
  forallb (fun c => negb (c =? sep)%N) a = true ->
  beforeFirst sep (a ++ sep :: b) = a.
Proof.
  induction a as [|c a IH]; cbn [beforeFirst app forallb]; intros H.
  - now rewrite N.eqb_refl.
  - apply andb_prop in H as [Hc Ha]. apply negb_true_iff in Hc.
    now rewrite Hc, IH.
Qed.

(** X8. The ticker shown on the For you button is the upper-cased part of
    the bot's symbol before its first slash: for a symbol base/quote with a
    non-empty base it is the base, whatever the quote; a symbol without a
    slash is taken whole; without a bot, or with an empty symbol, it is
    BTC. *)
Theorem botBaseAsset_is_base_of_symbol
    (toUpperCase : jsstring -> jsstring) (base quote : jsstring) :
  forallb (fun c => negb (c =? 0x2F)%N) base = true ->
  base <> [] ->
  botBaseAsset toUpperCase (Some {| symbol := base ++ 0x2F%N :: quote |})
    = toUpperCase base
  /\ botBaseAsset toUpperCase (Some {| symbol := base |}) = toUpperCase base
  /\ botBaseAsset toUpperCase (Some {| symbol := [] |}) = toUpperCase (js "BTC")
  /\ botBaseAsset toUpperCase None = toUpperCase (js "BTC").
Proof.
  intros Hbase Hne. unfold botBaseAsset. cbn [symbol].
  destruct base as [|c base]; [contradiction|]. cbn [truthy app].
  split; [|split; [|split; reflexivity]]; f_equal.
  - now apply (beforeFirst_app 0x2F (c :: base) quote).
  - now apply beforeFirst_absent.
Qed.

Lemma botBaseAsset_is_base_of_symbol_witness :
  botBaseAsset (fun s => s) (Some {| symbol := js "SOL/USDT" |}) = js "SOL".
Proof.
  refine (proj1 (botBaseAsset_is_base_of_symbol (fun s => s) (js "SOL") (js "USDT") _ _)).
  - reflexivity.
  - discriminate.
Defined.

End UrlProperties.

(** ** Source count, verdict and bar widths *)

Section DerivedValues.
Import Js News Dashboard Notions.

Lemma existsb_strictEq value set :
  existsb (strictEq value) set = true <-> In value set.
Proof.
  rewrite existsb_exists. split.
  - intros (x & Hx & E). apply strictEq_eq in E. now subst.
  - intros H. exists value. split; [exact H | apply strictEq_refl].
Qed.

Lemma setAdd_In set value x :
  In x (setAdd set value) <-> In x set \/ x = value.
Proof.
  unfold setAdd. destruct (existsb (strictEq value) set) eqn:E.
  - apply existsb_strictEq in E. split; [auto|]. intros [H| ->]; assumption.
  - rewrite in_app_iff. simpl. intuition.
Qed.

Lemma setAdd_NoDup set value : NoDup set -> NoDup (setAdd set value).
Proof.
  intros H. unfold setAdd. destruct (existsb (strictEq value) set) eqn:E; [exact H|].
  apply NoDup_app; [exact H | repeat constructor; simpl; tauto |].
  intros x Hx [<-|[]].
  apply existsb_strictEq in Hx. congruence.
Qed.

Lemma setAdd_length set value :
  List.length set <= List.length (setAdd set value) <= S (List.length set).
Proof.
  unfold setAdd. destruct (existsb (strictEq value) set); [lia|].
  rewrite length_app. simpl. lia.
Qed.

Lemma fold_setAdd values : forall set,
  NoDup set ->
  NoDup (fold_left setAdd values set)
  /\ (forall x, In x (fold_left setAdd values set) <-> In x set \/ In x values)
  /\ List.length set <= List.length (fold_left setAdd values set)
     <= List.length set + List.length values.
Proof.
  induction values as [|v values IH]; intros set Hset; cbn [fold_left].
  - split; [exact Hset|]. split; [simpl; tauto | simpl; lia].
  - destruct (IH (setAdd set v) (setAdd_NoDup set v Hset)) as (Hnd & Hin & Hlen).
    split; [exact Hnd|]. split.
    + intros x. rewrite Hin, setAdd_In. simpl. intuition.
    + pose proof (setAdd_length set v). simpl. lia.
Qed.

Lemma newSet_spec values :
  NoDup (newSet values)
  /\ (forall x, In x (newSet values) <-> In x values)
  /\ List.length (newSet values) <= List.length values.
Proof.
  destruct (fold_setAdd values [] (NoDup_nil _)) as (Hnd & Hin & Hlen).
  split; [exact Hnd|]. split.
  - intros x. unfold newSet. rewrite Hin. simpl. tauto.
  - unfold newSet. simpl in Hlen. lia.
Qed.

(** X9. The Sources badge shows the number of distinct sources: it is the
    length of any duplicate-free list that holds exactly the sources of the
    articles, however often and in whatever order they occur. *)
Theorem sourcesCount_counts_distinct_sources
    (news : list NewsArticle.t) (sources : list jsstring) :
  NoDup sources ->
  (forall s, In s sources <-> exists a, In a news /\ NewsArticle.source a = s) ->
  sourcesCount news = List.length sources.
Proof.
  intros Hnd Hsources.
  destruct (newSet_spec (map NewsArticle.source news)) as (Hset & Hin & _).
  unfold sourcesCount. apply Permutation_length, NoDup_Permutation; try assumption.
  intros s. rewrite Hin, Hsources, in_map_iff.
  split; intros (a & H1 & H2); exists a; auto.
Qed.

Lemma sourcesCount_counts_distinct_sources_witness :
  sourcesCount [Reference.articleOf NewsArticle.bullish;
                Reference.articleOf NewsArticle.bearish] = 1.
Proof.
  apply (sourcesCount_counts_distinct_sources
           [Reference.articleOf NewsArticle.bullish;
            Reference.articleOf NewsArticle.bearish] [[]]).
  - repeat constructor. simpl. tauto.
  - intros s. split.
    + intros [<-|[]]. exists (Reference.articleOf NewsArticle.bullish).
      simpl. auto.
    + intros (a & [<-|[<-|[]]] & <-); simpl; auto.
Defined.

(** X10. The Sources badge never exceeds the number of stories, and it is 0
    exactly when there is no story. *)
Theorem sourcesCount_bounds (news : list NewsArticle.t) :
  sourcesCount news <= List.length news
  /\ (sourcesCount news = 0 <-> news = []).
Proof.
  destruct (newSet_spec (map NewsArticle.source news)) as (_ & Hin & Hlen).
  unfold sourcesCount. rewrite length_map in Hlen. split; [exact Hlen|].
  split.
  - intros H. destruct news as [|a l]; [reflexivity|].
    apply length_zero_iff_nil in H.
    assert (In (NewsArticle.source a) (newSet (map NewsArticle.source (a :: l))))
      as Ha by (apply Hin; simpl; auto).
    rewrite H in Ha. contradiction.
  - intros ->. reflexivity.
Qed.

Lemma countSentiment_app s l1 l2 :
  countSentiment s (l1 ++ l2) = countSentiment s l1 + countSentiment s l2.
Proof. unfold countSentiment. now rewrite filter_app, length_app. Qed.

Lemma countSentiment_other s a l :
  NewsArticle.sentiment a <> s -> countSentiment s (a :: l) = countSentiment s l.
Proof.
  intros H. rewrite countSentiment_cons.
  destruct (NewsArticle.sentiment_eqb (NewsArticle.sentiment a) s) eqn:E;
    [|reflexivity].
  apply sentiment_eqb_eq in E. contradiction.
Qed.

(** X11. The verdict beside the sentiment bar is No Data exactly for an
    empty list, Bullish Bias exactly when bullish articles outnumber
    bearish ones, Bearish Bias exactly when bearish outnumber bullish, and
    Mixed Sentiment exactly for a non-empty list with as many bullish as
    bearish articles. *)
Theorem sentimentVerdict_cases (news : list NewsArticle.t) :
  (sentimentVerdict news = js "No Data" <-> news = [])
  /\ (sentimentVerdict news = js "Bullish Bias" <->
      bearishCount news < bullishCount news)
  /\ (sentimentVerdict news = js "Bearish Bias" <->
      bullishCount news < bearishCount news)
  /\ (sentimentVerdict news = js "Mixed Sentiment" <->
      news <> [] /\ bullishCount news = bearishCount news).
Proof.
  pose proof (counts_sum news) as Hsum.
  unfold sentimentVerdict.
  destruct news as [|a l].
  - change (0 <? List.length (@nil NewsArticle.t)) with false. cbv iota.
    change (bullishCount []) with 0. change (bearishCount []) with 0.
    split; [|split; [|split]]; split; intros H';
      try reflexivity; try lia;
      try (vm_compute in H'; discriminate H').
    destruct H' as [H' _]. contradiction.
  - change (0 <? List.length (a :: l)) with true. cbv iota.
    cbn [List.length] in Hsum.
    destruct (Nat.ltb_spec (bearishCount (a :: l)) (bullishCount (a :: l)));
      [|destruct (Nat.ltb_spec (bullishCount (a :: l)) (bearishCount (a :: l)))];
      (split; [|split; [|split]]); split; intros H';
      try reflexivity; try lia; try discriminate H';
      try (vm_compute in H'; discriminate H');
      try (apply proj2 in H'; lia);
      try (split; [discriminate | lia]).
Qed.

(** X12. Neutral articles do not move the verdict: adding a neutral
    article anywhere in a non-empty list leaves the verdict as it was. *)
Theorem neutral_article_keeps_verdict
    (before after : list NewsArticle.t) (a : NewsArticle.t) :
  NewsArticle.sentiment a = NewsArticle.neutral ->
  before ++ after <> [] ->
  sentimentVerdict (before ++ a :: after) = sentimentVerdict (before ++ after).
Proof.
  intros Ha Hne. unfold sentimentVerdict, bullishCount, bearishCount.
  rewrite !countSentiment_app.
  rewrite !(countSentiment_other _ a) by (rewrite Ha; discriminate).
  assert ((0 <? List.length (before ++ a :: after)) = true) as ->.
  { apply Nat.ltb_lt. rewrite length_app. simpl. lia. }
  assert ((0 <? List.length (before ++ after)) = true) as ->.
  { apply Nat.ltb_lt. destruct (before ++ after); [contradiction | simpl; lia]. }
  reflexivity.
Qed.

Lemma neutral_article_keeps_verdict_witness :
  sentimentVerdict [Reference.articleOf NewsArticle.bearish;
                    Reference.articleOf NewsArticle.neutral]
  = sentimentVerdict [Reference.articleOf NewsArticle.bearish].
Proof.
  apply (neutral_article_keeps_verdict
           [Reference.articleOf NewsArticle.bearish] []
           (Reference.articleOf NewsArticle.neutral) eq_refl).
  discriminate.
Defined.

Lemma countSentiment_Permutation s l l' :
  Permutation l l' -> countSentiment s l = countSentiment s l'.
Proof.
  induction 1 as [|a l l' _ IH|a b l|l l' l'' _ IH1 _ IH2].
  - reflexivity.
  - now rewrite !countSentiment_cons, IH.
  - rewrite !countSentiment_cons.
    now destruct (NewsArticle.sentiment_eqb (NewsArticle.sentiment a) s),
                 (NewsArticle.sentiment_eqb (NewsArticle.sentiment b) s).
  - congruence.
Qed.

(** X13. The order in which the server lists the articles does not matter
    to the summary values: two lists that are permutations of each other
    give the same three tallies, the same bar widths, the same verdict and
    the same source count. *)
Theorem summary_values_ignore_order (news news' : list NewsArticle.t) :
  Permutation news news' ->
  bullishCount news = bullishCount news'
  /\ bearishCount news = bearishCount news'
  /\ neutralCount news = neutralCount news'
  /\ barWidths news = barWidths news'
  /\ sentimentVerdict news = sentimentVerdict news'
  /\ sourcesCount news = sourcesCount news'.
Proof.
  intros Hperm.
  pose proof (countSentiment_Permutation NewsArticle.bullish _ _ Hperm) as Hb.
  pose proof (countSentiment_Permutation NewsArticle.bearish _ _ Hperm) as Hr.
  pose proof (countSentiment_Permutation NewsArticle.neutral _ _ Hperm) as Hn.
  pose proof (Permutation_length Hperm) as Hlen.
  fold bullishCount in Hb. fold bearishCount in Hr. fold neutralCount in Hn.
  repeat (split; [assumption|]).
  split; [unfold barWidths; now rewrite Hb, Hr, Hn, Hlen|].
  split; [unfold sentimentVerdict; now rewrite Hb, Hr, Hlen|].
  destruct (newSet_spec (map NewsArticle.source news)) as (Hnd & Hin & _).
  destruct (newSet_spec (map NewsArticle.source news')) as (Hnd' & Hin' & _).
  unfold sourcesCount. apply Permutation_length, NoDup_Permutation; try assumption.
  intros x. rewrite Hin, Hin'.
  split; apply Permutation_in; [|symmetry]; now apply Permutation_map.
Qed.

Lemma summary_values_ignore_order_witness :
  sentimentVerdict [Reference.articleOf NewsArticle.bullish;
                    Reference.articleOf NewsArticle.neutral]
  = sentimentVerdict [Reference.articleOf NewsArticle.neutral;
                      Reference.articleOf NewsArticle.bullish].
Proof.
  refine (proj1 (proj2 (proj2 (proj2 (proj2
            (summary_values_ignore_order
               [Reference.articleOf NewsArticle.bullish;
                Reference.articleOf NewsArticle.neutral]
               [Reference.articleOf NewsArticle.neutral;
                Reference.articleOf NewsArticle.bullish] _)))))).
  apply perm_swap.
Defined.

Lemma widthsArePercentages_upTo80 :
  forallb widthsArePercentages (seq 0 81) = true.
Proof. vm_compute. reflexivity. Qed.

Lemma barWidth_isPercentage count total :
  count <= total <= 80 -> isPercentage (barWidth count total) = true.
Proof.
  intros H. pose proof widthsArePercentages_upTo80 as Hall.
  rewrite forallb_forall in Hall.
  assert (widthsArePercentages total = true) as Ht by (apply Hall, in_seq; lia).
  unfold widthsArePercentages in Ht. rewrite forallb_forall in Ht.
  apply Ht, in_seq. lia.
Qed.

(** X14. For a list of at most 80 articles (the limit the news request
    asks for) each of the three bar widths is a double between 0 and 100,
    bounds included: no part of the bar is negative, undefined or wider
    than the bar. *)
Theorem bar_widths_are_percentages (news : list NewsArticle.t) :
  List.length news <= 80 ->
  let '(green, grey, red) := barWidths news in
  isPercentage green = true /\ isPercentage grey = true /\ isPercentage red = true.
Proof.
  intros Hlen. pose proof (counts_sum news) as Hsum. unfold barWidths.
  repeat split; apply barWidth_isPercentage; lia.
Qed.

Lemma bar_widths_are_percentages_witness :
  let '(green, grey, red) := barWidths [Reference.articleOf NewsArticle.neutral] in
  isPercentage green = true /\ isPercentage grey = true /\ isPercentage red = true.
Proof.
  apply (bar_widths_are_percentages [Reference.articleOf NewsArticle.neutral]).
  simpl. lia.
Defined.

Lemma conjunction_In {A : Type} (P : A -> Prop) (l : list A) :
  conjunction P l -> forall x, In x l -> P x.
Proof.
  induction l as [|y l IH]; simpl; intros H x Hx; [contradiction|].
  destruct H as [Hy Hl]. destruct Hx as [<-|Hx]; auto.
Qed.

Lemma full_and_empty_widths_upTo80 :
  conjunction (fun total => barWidth total total = 100%float
                            /\ barWidth 0 total = 0%float)
              (seq 1 80).
Proof. vm_compute. repeat split. Qed.

Lemma countSentiment_all s s' l :
  (forall a, In a l -> NewsArticle.sentiment a = s) ->
  countSentiment s' l = if NewsArticle.sentiment_eqb s s' then List.length l else 0.
Proof.
  intros Hall. induction l as [|a l IH]; [now destruct (NewsArticle.sentiment_eqb s s')|].
  rewrite countSentiment_cons, IH by (intros b Hb; apply Hall; now right).
  rewrite (Hall a) by now left.
  now destruct (NewsArticle.sentiment_eqb s s').
Qed.

(** X15. When all articles of a list of 1 to 80 have the same sentiment,
    the part of the bar for that sentiment is exactly 100 wide and the two
    other parts are exactly 0. *)
Theorem bar_of_one_sentiment (s : NewsArticle.Sentiment) (news : list NewsArticle.t) :
  (forall a, In a news -> NewsArticle.sentiment a = s) ->
  1 <= List.length news <= 80 ->
  barWidths news =
    match s with
    | NewsArticle.bullish => (100, 0, 0)
    | NewsArticle.neutral => (0, 100, 0)
    | NewsArticle.bearish => (0, 0, 100)
    end%float.
Proof.
  intros Hall Hlen.
  destruct (conjunction_In _ _ full_and_empty_widths_upTo80 (List.length news))
    as [Hfull Hempty]; [apply in_seq; lia|].
  unfold barWidths, bullishCount, bearishCount, neutralCount.
  rewrite !(countSentiment_all s _ news Hall).
  destruct s; cbn [NewsArticle.sentiment_eqb]; now rewrite Hfull, Hempty.
Qed.

Lemma bar_of_one_sentiment_witness :
  barWidths [Reference.articleOf NewsArticle.bearish;
             Reference.articleOf NewsArticle.bearish] = (0, 0, 100)%float.
Proof.
  apply (bar_of_one_sentiment NewsArticle.bearish
           [Reference.articleOf NewsArticle.bearish;
            Reference.articleOf NewsArticle.bearish]).
  - intros a [<-|[<-|[]]]; reflexivity.
  - simpl. lia.
Defined.

End DerivedValues.

(** ** The text of elapsed time, and the cards *)

Section Cards.
Import Js UrlEncoded News Dashboard.
Local Open Scope Z_scope.

(** X16. For a timestamp the platform can parse, the text is Just now, or
    a count of minutes from 1 to 59, or a count of hours from 1 to 23, or a
    count of days that is at least 1: never 0 of a unit, never 60 minutes
    or 24 hours. *)
Theorem formatTimeAgo_shapes
    (getTime : jsstring -> option Z) (now : Z) (timestamp : jsstring) (date : Z) :
  getTime timestamp = Some date ->
  formatTimeAgo getTime now timestamp = js "Just now"
  \/ (exists n, 1 <= n < 60 /\
        formatTimeAgo getTime now timestamp = numberToString n ++ js "m ago")
  \/ (exists n, 1 <= n < 24 /\
        formatTimeAgo getTime now timestamp = numberToString n ++ js "h ago")
  \/ (exists n, 1 <= n /\
        formatTimeAgo getTime now timestamp = numberToString n ++ js "d ago").
Proof.
  intros Hget. rewrite (formatTimeAgo_valid _ _ _ _ Hget). cbv zeta.
  set (mins := (now - date) / 60000).
  destruct (Z.ltb_spec mins 1) as [H1|H1]; [now left|].
  destruct (Z.ltb_spec mins 60) as [H60|H60].
  { right; left. exists mins. split; [lia | reflexivity]. }
  assert (1 <= mins / 60) by (apply Z.div_le_lower_bound; lia).
  destruct (Z.ltb_spec (mins / 60) 24) as [H24|H24].
  { right; right; left. exists (mins / 60). split; [lia | reflexivity]. }
  right; right; right. exists (mins / 60 / 24). split; [|reflexivity].
  apply Z.div_le_lower_bound; lia.
Qed.

Lemma formatTimeAgo_shapes_witness :
  formatTimeAgo (fun _ => Some 0) 3600000 [] = js "Just now"
  \/ (exists n, 1 <= n < 60 /\
        formatTimeAgo (fun _ => Some 0) 3600000 [] = numberToString n ++ js "m ago")
  \/ (exists n, 1 <= n < 24 /\
        formatTimeAgo (fun _ => Some 0) 3600000 [] = numberToString n ++ js "h ago")
  \/ (exists n, 1 <= n /\
        formatTimeAgo (fun _ => Some 0) 3600000 [] = numberToString n ++ js "d ago").
Proof.
  exact (formatTimeAgo_shapes (fun _ => Some 0) 3600000 [] 0 eq_refl).
Defined.

Local Close Scope Z_scope.

(** X17. The alerts panel shows the notice that there are no alerts
    exactly for a response with an empty alerts array, and then no card;
    before the first response it shows neither cards nor the notice; and
    whenever it shows a card it does not show the notice. *)
Theorem alerts_notice_or_cards
    (getTime : jsstring -> option Z) (now : Z) (alerts : option NewsAlerts.t) :
  (alertsEmptyNotice alerts <> None <->
   exists r, alerts = Some r /\ NewsAlerts.alerts r = [])
  /\ (alertsEmptyNotice alerts <> None -> alertsPanel getTime now alerts = [])
  /\ (alerts = None ->
      alertsPanel getTime now alerts = [] /\ alertsEmptyNotice alerts = None)
  /\ (alertsPanel getTime now alerts <> [] -> alertsEmptyNotice alerts = None)
  /\ (forall minutes, alertsEmptyNotice alerts = Some minutes ->
      exists r, alerts = Some r /\ minutes = NewsAlerts.minutes r).
Proof.
  unfold alertsEmptyNotice, alertsPanel.
  destruct alerts as [r|]; [destruct (NewsAlerts.alerts r) as [|a l] eqn:E|];
    cbn [List.length Nat.eqb firstn map].
  - split; [split; [intros _; now exists r | discriminate]|].
    split; [reflexivity|]. split; [discriminate|]. split; [contradiction|].
    intros minutes H. injection H as <-. now exists r.
  - split; [split; [contradiction | intros (r' & H & H'); congruence]|].
    split; [contradiction|]. split; [discriminate|]. split; [reflexivity|].
    discriminate.
  - split; [split; [contradiction | intros (r' & H & _); discriminate]|].
    split; [contradiction|]. split; [auto|]. split; [reflexivity|].
    discriminate.
Qed.

Lemma length_mapIndexed {A B : Type} (f : A -> nat -> B) l : forall index,
  List.length (mapIndexed f index l) = List.length l.
Proof. induction l as [|x l IH]; intros index; simpl; [reflexivity | now rewrite IH]. Qed.

Lemma nth_error_mapIndexed {A B : Type} (f : A -> nat -> B) l : forall index i,
  nth_error (mapIndexed f index l) i
  = option_map (fun x => f x (index + i)) (nth_error l i).
Proof.
  induction l as [|x l IH]; intros index [|i]; simpl; try reflexivity.
  - now rewrite Nat.add_0_r.
  - rewrite IH. now rewrite Nat.add_succ_r.
Qed.

Lemma reasonBadges_firstn article :
  reasonBadges article =
    firstn 4 (match NewsArticle.reasons article with Some l => l | None => [] end).
Proof.
  unfold reasonBadges.
  destruct (NewsArticle.reasons article) as [[|r l]|]; reflexivity.
Qed.

(** X18. The headline list shows the spinner exactly while loading and the
    notice that there are no articles exactly for a loaded empty list;
    otherwise it shows one card per article, all of them and in the
    server's order, the i-th card built from the i-th article. A card
    carries every asset of its article and the first four of its reasons. *)
Theorem headlines_show_every_article
    (getTime : jsstring -> option Z) (now : Z) (isLoading : bool)
    (news : list NewsArticle.t) :
  (headlines getTime now isLoading news = Spinner <-> isLoading = true)
  /\ (headlines getTime now isLoading news = NoArticles <->
      isLoading = false /\ news = [])
  /\ (forall cards, headlines getTime now isLoading news = Cards cards ->
      isLoading = false
      /\ cards <> []
      /\ List.length cards = List.length news
      /\ forall i, nth_error cards i =
           option_map (fun a => headlineCard getTime now a i) (nth_error news i))
  /\ (forall a i,
        assetBadges (headlineCard getTime now a i) = NewsArticle.assets a
        /\ reasonTags (headlineCard getTime now a i) =
             firstn 4 (match NewsArticle.reasons a with Some l => l | None => [] end)).
Proof.
  unfold headlines, filteredNews.
  split; [|split; [|split]].
  - destruct isLoading; [tauto|].
    destruct news; cbn [List.length Nat.eqb]; split; discriminate.
  - destruct isLoading; [split; [discriminate | intros [H _]; discriminate]|].
    destruct news; cbn [List.length Nat.eqb];
      split; try discriminate; auto.
    intros [_ H]. discriminate.
  - intros cards H. destruct isLoading; [discriminate|].
    destruct news as [|a l]; cbn [List.length Nat.eqb] in H; [discriminate|].
    injection H as <-. split; [reflexivity|]. split; [discriminate|].
    split; [exact (length_mapIndexed (headlineCard getTime now) (a :: l) 0)|].
    intros i. exact (nth_error_mapIndexed (headlineCard getTime now) (a :: l) 0 i).
  - intros a i. cbn [assetBadges reasonTags headlineCard]. split.
    + now destruct (NewsArticle.assets a).
    + apply reasonBadges_firstn.
Qed.

(** X19. The briefing card shows the hints, all of them and in order, with
    the disclaimer under them, exactly when a briefing has arrived that has
    at least one hint: a briefing without hints shows no disclaimer. The AI
    badge is shown exactly for an arrived briefing that used AI, and the
    Sources badge counts the sources of the headline list, not of the
    briefing. *)
Theorem briefing_card_hints_and_badges
    (briefing : option NewsBriefing.t) (news : list NewsArticle.t) :
  (forall hints text,
     hintsBlock (briefingCard briefing news) = Some (hints, text) <->
     exists b, briefing = Some b
               /\ NewsBriefing.strategyHints b = hints /\ hints <> []
               /\ NewsBriefing.disclaimer b = text)
  /\ (aiBadge (briefingCard briefing news) = true <->
      exists b, briefing = Some b /\ NewsBriefing.aiUsed b = true)
  /\ sourcesBadge (briefingCard briefing news) = sourcesCount news.
Proof.
  unfold briefingCard. cbn [hintsBlock aiBadge sourcesBadge].
  split; [|split; [|reflexivity]].
  - intros hints text. destruct briefing as [b|].
    + destruct (NewsBriefing.strategyHints b) as [|h hs] eqn:E;
        cbn [List.length Nat.ltb Nat.leb].
      * split; [discriminate|]. intros (b' & H & H1 & H2 & _).
        injection H as <-. congruence.
      * split.
        -- intros H. injection H as <- <-. exists b.
           repeat split; auto. discriminate.
        -- intros (b' & H & H1 & _ & H2). injection H as <-. congruence.
    + split; [discriminate | intros (b & H & _); discriminate].
  - destruct briefing as [b|].
    + split; [intros H; now exists b | intros (b' & H & H'); congruence].
    + split; [discriminate | intros (b & H & _); discriminate].
Qed.

End Cards.
